(** * gitlab_exporter: label-transition report

    A shallow embedding of [bin/gitlab_exporter.py] and the properties of
    its report pipeline: event normalisation, transition detection, window
    filtering, row building, table assembly, the sheet range and the
    command-line defaults. *)

From Stdlib Require Import ZArith List String Ascii Bool Lia.
From Stdlib Require Import Permutation Sorted SpecFloat DecimalString.
From Stdlib Require QArith.
From Stdlib Require Import ZifyNat.
Import ListNotations.

Local Open Scope string_scope.
Local Open Scope list_scope.
Local Open Scope Z_scope.

(** ** Python run-time values and exceptions *)

Module Py.

(** The exceptions the script can raise in the modelled code. *)
Inductive exn : Type :=
| ValueError      (* datetime.fromisoformat on a malformed string *)
| IndexError      (* values[0], string.ascii_uppercase[i] *)
| KeyError        (* LABELS[label] *)
| OverflowError.  (* date arithmetic leaving year 1..9999 *)

Inductive result (A : Type) : Type :=
| Ok (a : A)
| Raise (e : exn).
Arguments Ok {A} a.
Arguments Raise {A} e.

Definition bind {A B} (m : result A) (k : A -> result B) : result B :=
  match m with
  | Ok a => k a
  | Raise e => Raise e
  end.

End Py.

Notation "x <- m ;; k" := (Py.bind m (fun x => k))
  (at level 61, m at next level, right associativity).

(** ** [datetime]: naive date-times, as the standard library stores them *)

Module Datetime.

Record date : Type := mkdate { d_year : Z; d_month : Z; d_day : Z }.

Record datetime : Type := mkdatetime {
  year : Z; month : Z; day : Z;
  hour : Z; minute : Z; second : Z; microsecond : Z
}.

(** Python compares two naive datetimes as the 7-tuples of their fields. *)
Definition fields (d : datetime) : list Z :=
  [year d; month d; day d; hour d; minute d; second d; microsecond d].

Fixpoint tuple_cmp (a b : list Z) : comparison :=
  match a, b with
  | [], [] => Eq
  | [], _ :: _ => Lt
  | _ :: _, [] => Gt
  | x :: a', y :: b' =>
      match Z.compare x y with
      | Eq => tuple_cmp a' b'
      | c => c
      end
  end.

Definition cmp (a b : datetime) : comparison := tuple_cmp (fields a) (fields b).

Definition ltb (a b : datetime) : bool :=
  match cmp a b with Lt => true | _ => false end.
Definition leb (a b : datetime) : bool :=
  match cmp a b with Gt => false | _ => true end.

(** *** Calendar arithmetic ([_ymd2ord], [_ord2ymd]) *)

Definition is_leap (y : Z) : bool :=
  (y mod 4 =? 0) && (negb (y mod 100 =? 0) || (y mod 400 =? 0)).

Definition days_before_year (y : Z) : Z :=
  let y1 := y - 1 in y1 * 365 + y1 / 4 - y1 / 100 + y1 / 400.

(** Index 0 is a placeholder, as in [_DAYS_IN_MONTH]. *)
Definition DAYS_IN_MONTH : list Z :=
  [-1; 31; 28; 31; 30; 31; 30; 31; 31; 30; 31; 30; 31].
Definition DAYS_BEFORE_MONTH : list Z :=
  [-1; 0; 31; 59; 90; 120; 151; 181; 212; 243; 273; 304; 334].

Definition b2z (b : bool) : Z := if b then 1 else 0.

Definition days_in_month (y m : Z) : Z :=
  if (m =? 2) && is_leap y then 29 else nth (Z.to_nat m) DAYS_IN_MONTH 0.

Definition days_before_month (y m : Z) : Z :=
  nth (Z.to_nat m) DAYS_BEFORE_MONTH 0 + b2z ((2 <? m) && is_leap y).

Definition ymd2ord (y m d : Z) : Z :=
  days_before_year y + days_before_month y m + d.

Definition DI400Y : Z := 146097.
Definition DI100Y : Z := 36524.
Definition DI4Y : Z := 1461.
Definition MAXORDINAL : Z := 3652059.

Definition ord2ymd (n : Z) : date :=
  let n := n - 1 in
  let n400 := n / DI400Y in
  let n := n mod DI400Y in
  let y := n400 * 400 + 1 in
  let n100 := n / DI100Y in
  let n := n mod DI100Y in
  let n4 := n / DI4Y in
  let n := n mod DI4Y in
  let n1 := n / 365 in
  let n := n mod 365 in
  let y := y + n100 * 100 + n4 * 4 + n1 in
  if (n1 =? 4) || (n100 =? 4) then mkdate (y - 1) 12 31
  else
    let leapyear := (n1 =? 3) && (negb (n4 =? 24) || (n100 =? 3)) in
    let m := Z.shiftr (n + 50) 5 in
    let preceding := nth (Z.to_nat m) DAYS_BEFORE_MONTH 0
                     + b2z ((2 <? m) && leapyear) in
    if n <? preceding then
      let m' := m - 1 in
      let preceding' := preceding
                        - (nth (Z.to_nat m') DAYS_IN_MONTH 0
                           + b2z ((m' =? 2) && leapyear)) in
      mkdate y m' (n - preceding' + 1)
    else mkdate y m (n - preceding + 1).

Definition date_toordinal (d : date) : Z :=
  ymd2ord (d_year d) (d_month d) (d_day d).

Definition toordinal (d : datetime) : Z := ymd2ord (year d) (month d) (day d).

(** A date the [date] constructor accepts. *)
Definition valid_date (d : date) : Prop :=
  1 <= d_year d <= 9999 /\ 1 <= d_month d <= 12 /\
  1 <= d_day d <= days_in_month (d_year d) (d_month d).

(** [d - timedelta(days=n)]: [date.__add__] with the negated day count. *)
Definition date_sub_days (d : date) (n : Z) : Py.result date :=
  let o := date_toordinal d + - n in
  if (0 <? o) && (o <=? MAXORDINAL) then Py.Ok (ord2ymd o)
  else Py.Raise Py.OverflowError.

(** *** [timedelta] *)

(** Normalised as the constructor leaves it:
    [0 <= seconds < 86400] and [0 <= microseconds < 1000000]. *)
Record timedelta : Type := mktimedelta {
  td_days : Z; td_seconds : Z; td_microseconds : Z
}.

Definition timedelta_of (days seconds microseconds : Z) : timedelta :=
  let us := (days * 86400 + seconds) * 1000000 + microseconds in
  let s := us / 1000000 in
  mktimedelta (s / 86400) (s mod 86400) (us mod 1000000).

(** [datetime.__sub__] on two naive datetimes. *)
Definition sub (a b : datetime) : timedelta :=
  let secs1 := second a + minute a * 60 + hour a * 3600 in
  let secs2 := second b + minute b * 60 + hour b * 3600 in
  timedelta_of (toordinal a - toordinal b) (secs1 - secs2)
               (microsecond a - microsecond b).

Definition to_microseconds (t : timedelta) : Z :=
  (td_days t * 86400 + td_seconds t) * 1000000 + td_microseconds t.

(** *** [strftime] *)

Definition decimal (z : Z) : string :=
  NilZero.string_of_uint (N.to_uint (Z.to_N z)).

Fixpoint zeros (n : nat) : string :=
  match n with
  | O => EmptyString
  | S n' => String "0" (zeros n')
  end.

(** [%02d], [%04d]: decimal, left-padded with zeros to [width]. *)
Definition zero_pad (width : nat) (z : Z) : string :=
  let s := decimal z in
  (zeros (width - String.length s) ++ s)%string.

(** [d.strftime("%m/%d/%Y %H:%M:%S")].  The year is written with four
    digits, as the library documents [%Y]. *)
Definition strftime_gsheet (d : datetime) : string :=
  (zero_pad 2 (month d) ++ "/" ++ zero_pad 2 (day d) ++ "/"
   ++ zero_pad 4 (year d) ++ " "
   ++ zero_pad 2 (hour d) ++ ":" ++ zero_pad 2 (minute d) ++ ":"
   ++ zero_pad 2 (second d))%string.

End Datetime.

Import Datetime.

(** ** Python floats: IEEE 754 binary64 *)

Module Float64.

Definition prec : Z := 53.
Definition emax : Z := 1024.

Definition float : Type := spec_float.

(** An integer as an unrounded binary number with exponent 0. *)
Definition exact (z : Z) : spec_float :=
  match z with
  | Z0 => S754_zero false
  | Zpos p => S754_finite false p 0
  | Zneg p => S754_finite true p 0
  end.

(** [float(z)]: the integer rounded to nearest, ties to even. *)
Definition of_int (z : Z) : float := binary_normalize prec emax z 0 false.

(** [a / b] on two ints (true division): the exact quotient rounded once. *)
Definition int_truediv (a b : Z) : float := SFdiv prec emax (exact a) (exact b).

(** [x / y] on two floats. *)
Definition div (x y : float) : float := SFdiv prec emax x y.

Definition is_zero (x : float) : bool :=
  match x with S754_zero _ => true | _ => false end.

(** [timedelta.total_seconds()]. *)
Definition total_seconds (t : timedelta) : float :=
  int_truediv (to_microseconds t) (10 ^ 6).

End Float64.

(** Cell values of the report table. *)
Inductive value : Type :=
| VNone
| VStr (s : string)
| VInt (z : Z)
| VFloat (f : Float64.float).

(** [bool(v)], as [any] tests it. *)
Definition truthy (v : value) : bool :=
  match v with
  | VNone => false
  | VStr s => negb (String.eqb s "")
  | VInt z => negb (z =? 0)
  | VFloat f => negb (Float64.is_zero f)
  end.

(** [any(xs)]. *)
Definition any (xs : list value) : bool := existsb truthy xs.

(** ** The transition detector *)

(** A normalised label event: [(label name, created_at)]. *)
Definition event : Type := (string * datetime)%type.

(** The [for] loop of [find_events_dates_changes]: [start] is the current
    value of [start_datetime]; [end_datetime] stays [None] until the [break]. *)
Fixpoint scan_events (events : list event) (starting_label final_label : string)
    (start : option datetime) : option datetime * option datetime :=
  match events with
  | [] => (start, None)
  | (label, created_at) :: rest =>
      if String.eqb label final_label then (start, Some created_at)
      else if String.eqb label starting_label
           then scan_events rest starting_label final_label (Some created_at)
           else scan_events rest starting_label final_label start
  end.

Definition find_events_dates_changes (events : list event)
    (starting_label final_label : string) : option datetime * option datetime :=
  scan_events events starting_label final_label None.

(** Specification side: the timestamp of the last event of [events], in
    scan order, that carries [label]. *)
Definition latest_occurrence (label : string) (events : list event)
    : option datetime :=
  last (map (fun e : event => Some (snd e))
            (filter (fun e : event => String.eqb (fst e) label) events))
       None.

Definition occurs (label : string) (events : list event) : Prop :=
  In label (map fst events).

(** ** Module constants *)

Definition LABEL_DOING : string := "status::Doing".
Definition LABEL_REVIEW : string := "status::Review".
Definition LABEL_READY_FOR_QA : string := "status::Ready for Final QA".
Definition LABEL_WAITING_FOR_PROD : string := "status::Waiting for PROD".
Definition LABEL_RELEASED : string := "status::Released".

(** The [LABELS] dict: recognised label name -> column title. *)
Definition LABELS : list (string * string) :=
  [ (LABEL_DOING, "Doing");
    (LABEL_REVIEW, "Review");
    (LABEL_READY_FOR_QA, "QA");
    (LABEL_WAITING_FOR_PROD, "Waiting for Prod");
    (LABEL_RELEASED, "Released") ].

(** Label transitions we care about, [(starting_label, final_label)]. *)
Definition LABEL_TRANSITIONS : list (string * string) :=
  [ (LABEL_DOING, LABEL_REVIEW);
    (LABEL_REVIEW, LABEL_READY_FOR_QA);
    (LABEL_READY_FOR_QA, LABEL_WAITING_FOR_PROD);
    (LABEL_WAITING_FOR_PROD, LABEL_RELEASED);
    (LABEL_DOING, LABEL_RELEASED) ].

(** [name in LABELS.keys()]. *)
Definition in_LABELS (name : string) : bool :=
  existsb (String.eqb name) (map fst LABELS).

(** [LABELS[name]]. *)
Fixpoint dict_get (d : list (string * string)) (name : string)
    : Py.result string :=
  match d with
  | [] => Py.Raise Py.KeyError
  | (k, v) :: d' => if String.eqb k name then Py.Ok v else dict_get d' name
  end.

(** ** Objects returned by the GitLab client *)

(** A resource label event.  [label] is the name held by the label
    descriptor, [None] when the descriptor is null. *)
Record raw_event : Type := mkraw {
  label : option string;
  created_at : string
}.

Record issue : Type := mkissue {
  id : Z;                              (* internal storage id *)
  iid : Z;                             (* the issue number users see *)
  resourcelabelevents : list raw_event
}.

Record project : Type := mkproject {
  name : string;
  issues : list issue
}.

(** ** String helpers *)

Definition is_empty (s : string) : bool :=
  match s with EmptyString => true | String _ _ => false end.

(** [s.rstrip(c)] for a one-character argument. *)
Fixpoint rstrip (c : ascii) (s : string) : string :=
  match s with
  | EmptyString => EmptyString
  | String a s' =>
      let r := rstrip c s' in
      if is_empty r && Ascii.eqb a c then EmptyString else String a r
  end.

(** ** Sorting: [sorted(events, key=operator.itemgetter(1))] *)

(** [sorted] is stable and compares keys with [<] only.  On keys that are
    totally preordered by [<] its result is the unique stable sorted
    arrangement, which insertion from the right computes: an element goes
    before the first element that is not strictly smaller than it. *)
Fixpoint insert_by_time (x : event) (l : list event) : list event :=
  match l with
  | [] => [x]
  | y :: l' =>
      if Datetime.ltb (snd y) (snd x) then y :: insert_by_time x l'
      else x :: y :: l'
  end.

Fixpoint sorted_by_time (l : list event) : list event :=
  match l with
  | [] => []
  | x :: l' => insert_by_time x (sorted_by_time l')
  end.

(** ** Window filter and row cells *)

(** The [if] of [find_issue_dates_changes] on one transition result:
    both datetimes are truthy objects, so the test is on their presence. *)
Definition window_filter (start_date end_date : datetime)
    (r : option datetime * option datetime)
    : option datetime * option datetime :=
  match r with
  | (Some start_datetime, Some end_datetime) =>
      if negb (Datetime.leb start_date end_datetime
               && Datetime.ltb end_datetime end_date)
      then (None, None)
      else (Some start_datetime, Some end_datetime)
  | _ => r
  end.

Definition format_datetime_for_gsheet (datetime_obj : option datetime) : value :=
  match datetime_obj with
  | None => VNone
  | Some d => VStr (strftime_gsheet d)
  end.

(** [(end_datetime - start_datetime).total_seconds() / (3600 * 24)]. *)
Definition nb_days (start_datetime end_datetime : datetime) : Float64.float :=
  Float64.div (Float64.total_seconds (Datetime.sub end_datetime start_datetime))
              (Float64.of_int (3600 * 24)).

(** One iteration of the formatting loop of [find_project_date_changes]. *)
Definition extend_issue_values (issue_values : list value)
    (r : option datetime * option datetime) : list value :=
  match r with
  | (Some start_datetime, Some end_datetime) =>
      issue_values ++
        [ format_datetime_for_gsheet (Some start_datetime);
          format_datetime_for_gsheet (Some end_datetime);
          VFloat (nb_days start_datetime end_datetime) ]
  | _ => issue_values ++ [VStr ""; VStr ""; VStr ""]
  end.

Definition format_date_changes (date_changes : list (option datetime * option datetime))
    : list value :=
  fold_left extend_issue_values date_changes [].

(** ** The sheet range *)

Definition table : Type := list (list value).

(** What [worksheet.update] receives, and the tab it is sent to. *)
Record sheet_update : Type := mkupdate {
  u_tab_name : string;
  u_range : string;
  u_values : table
}.

Definition ascii_uppercase : string := "ABCDEFGHIJKLMNOPQRSTUVWXYZ".

(** [s[i]] for a non-negative index. *)
Definition str_index (s : string) (i : nat) : Py.result ascii :=
  match String.get i s with
  | Some c => Py.Ok c
  | None => Py.Raise Py.IndexError
  end.

Definition decimal_nat (n : nat) : string :=
  NilZero.string_of_uint (Nat.to_uint n).

(** The range [write_to_gsheet] passes to [worksheet.update]:
    [f"A1:{string.ascii_uppercase[nb_cols]}{nb_rows}"]. *)
Definition update_range (values : table) : Py.result string :=
  let nb_rows := List.length values in
  match values with
  | [] => Py.Raise Py.IndexError
  | row0 :: _ =>
      let nb_cols := List.length row0 in
      c <- str_index ascii_uppercase nb_cols ;;
      Py.Ok ("A1:" ++ String c (decimal_nat nb_rows))%string
  end.

(** [write_to_gsheet]: the tab is looked up, or created when missing, and
    receives one call [worksheet.update(range, values)]. *)
Definition write_to_gsheet (values : table) (tab_name : string)
    : Py.result sheet_update :=
  range <- update_range values ;;
  Py.Ok (mkupdate tab_name range values).

(** ** Command-line defaults *)

(** A default is given to click as [str(d)], that is [YYYY-MM-DD], and
    [click.DateTime(formats=["%Y-%m-%d"])] turns it into that day at 00:00:00. *)
Definition click_DateTime (d : date) : datetime :=
  mkdatetime (d_year d) (d_month d) (d_day d) 0 0 0 0.

(** [default=str(date.today() - timedelta(days=30))] of [--start-date]. *)
Definition start_date_default (today : date) : Py.result datetime :=
  d <- date_sub_days today 30 ;;
  Py.Ok (click_DateTime d).

(** [default=str(date.today())] of [--end-date]. *)
Definition end_date_default (today : date) : Py.result datetime :=
  Py.Ok (click_DateTime today).

(** ** A parser for the API's timestamp format

    [datetime.fromisoformat] belongs to the Python library and is a
    parameter of the development below.  Concrete runs instantiate it with
    this parser of [YYYY-MM-DDTHH:MM:SS], optionally followed by a fraction
    of three or six digits, which is what the API sends once the trailing
    [Z] is stripped. *)

Definition digit_of (c : ascii) : option Z :=
  let n := nat_of_ascii c in
  if (48 <=? n)%nat && (n <=? 57)%nat then Some (Z.of_nat (n - 48)) else None.

Fixpoint digits_value (s : string) (acc : Z) : option Z :=
  match s with
  | EmptyString => Some acc
  | String c s' =>
      match digit_of c with
      | Some d => digits_value s' (acc * 10 + d)
      | None => None
      end
  end.

Definition number_at (s : string) (pos len : nat) : option Z :=
  let t := String.substring pos len s in
  if (String.length t =? len)%nat then digits_value t 0 else None.

Definition char_at (s : string) (pos : nat) (c : ascii) : bool :=
  match String.get pos s with
  | Some a => Ascii.eqb a c
  | None => false
  end.

Definition fraction_of (s : string) : option Z :=
  match String.length s with
  | 19%nat => Some 0
  | 23%nat =>
      if char_at s 19 "." then option_map (Z.mul 1000) (number_at s 20 3) else None
  | 26%nat => if char_at s 19 "." then number_at s 20 6 else None
  | _ => None
  end.

Definition iso_parser (s : string) : Py.result datetime :=
  match number_at s 0 4, number_at s 5 2, number_at s 8 2,
        number_at s 11 2, number_at s 14 2, number_at s 17 2, fraction_of s with
  | Some y, Some m, Some d, Some hh, Some mm, Some ss, Some us =>
      if char_at s 4 "-" && char_at s 7 "-" && char_at s 10 "T"
         && char_at s 13 ":" && char_at s 16 ":"
         && (1 <=? y) && (1 <=? m) && (m <=? 12)
         && (1 <=? d) && (d <=? days_in_month y m)
         && (hh <? 24) && (mm <? 60) && (ss <? 60)
      then Py.Ok (mkdatetime y m d hh mm ss us)
      else Py.Raise Py.ValueError
  | _, _, _, _, _, _, _ => Py.Raise Py.ValueError
  end.

(** ** The report pipeline *)

(** Lines written by [click.echo], oldest first. *)
Definition stdout : Type := list string.

Section Exporter.

(** [datetime.fromisoformat]. *)
Variable fromisoformat : string -> Py.result datetime.

(** [gl.projects.get]: the tracker's answer for a project id. *)
Variable gl_projects_get : string -> Py.result project.

Definition parse_datetime (datetime_str : string) : Py.result datetime :=
  fromisoformat (rstrip "Z" datetime_str).

(** The list comprehension of [find_issue_dates_changes]: the condition is
    tested first and [parse_datetime] runs on the retained events only. *)
Fixpoint relevant_events (raw : list raw_event) : Py.result (list event) :=
  match raw with
  | [] => Py.Ok []
  | ev :: rest =>
      match label ev with
      | Some label_name =>
          if in_LABELS label_name then
            t <- parse_datetime (created_at ev) ;;
            evs <- relevant_events rest ;;
            Py.Ok ((label_name, t) :: evs)
          else relevant_events rest
      | None => relevant_events rest
      end
  end.

(** The event normaliser: filter, parse, sort. *)
Definition normalized_events (i : issue) : Py.result (list event) :=
  events <- relevant_events (resourcelabelevents i) ;;
  Py.Ok (sorted_by_time events).

Definition find_issue_dates_changes (i : issue) (start_date end_date : datetime)
    : Py.result (list (option datetime * option datetime)) :=
  events <- normalized_events i ;;
  Py.Ok (map (fun tr : string * string =>
                window_filter start_date end_date
                  (find_events_dates_changes events (fst tr) (snd tr)))
             LABEL_TRANSITIONS).

(** [click.echo(f"Treated {idx} issues")] under [if idx and idx % 100 == 0]. *)
Definition echo_progress (idx : nat) (out : stdout) : stdout :=
  if negb (idx =? 0)%nat && (idx mod 100 =? 0)%nat
  then out ++ [("Treated " ++ decimal_nat idx ++ " issues")%string]
  else out.

(** The loop of [find_project_date_changes] from position [idx] on;
    [values] is the list built so far. *)
Fixpoint project_loop (idx : nat) (todo : list issue)
    (start_date end_date : datetime) (values : table) (out : stdout)
    : Py.result table * stdout :=
  match todo with
  | [] => (Py.Ok values, out)
  | i :: rest =>
      let out := echo_progress idx out in
      match find_issue_dates_changes i start_date end_date with
      | Py.Raise e => (Py.Raise e, out)
      | Py.Ok date_changes =>
          let issue_values := format_date_changes date_changes in
          if negb (any issue_values)
          then project_loop (S idx) rest start_date end_date values out
          else project_loop (S idx) rest start_date end_date
                 (values ++ [VInt (iid i) :: issue_values]) out
      end
  end.

Definition find_project_date_changes (p : project)
    (start_date end_date : datetime) (out : stdout)
    : Py.result table * stdout :=
  project_loop 0 (issues p) start_date end_date [] out.

(** The header loop of [generate_label_report]. *)
Fixpoint header_loop (transitions : list (string * string))
    (header : list value) : Py.result (list value) :=
  match transitions with
  | [] => Py.Ok header
  | (starting_label, final_label) :: rest =>
      a <- dict_get LABELS starting_label ;;
      b <- dict_get LABELS final_label ;;
      header_loop rest (header ++ [VStr a; VStr b; VStr "Nb. days"])
  end.

Definition report_header : Py.result (list value) :=
  header_loop LABEL_TRANSITIONS [VStr "Project"; VStr "Issue #"].

(** The loop over [config["gitlab:projects"].items()]. *)
Fixpoint report_loop (projects : list (string * string))
    (start_date end_date : datetime) (values : table) (out : stdout)
    : Py.result table * stdout :=
  match projects with
  | [] => (Py.Ok values, out)
  | (project_name, project_id) :: rest =>
      let out := out ++ [("Looking at " ++ project_name)%string] in
      match gl_projects_get project_id with
      | Py.Raise e => (Py.Raise e, out)
      | Py.Ok p =>
          match find_project_date_changes p start_date end_date out with
          | (Py.Raise e, out) => (Py.Raise e, out)
          | (Py.Ok project_values, out) =>
              report_loop rest start_date end_date
                (values ++ map (fun v => VStr (name p) :: v) project_values)
                out
          end
      end
  end.

(** The table handed to [write_to_gsheet]. *)
Definition report_table (projects : list (string * string))
    (start_date end_date : datetime) (out : stdout)
    : Py.result table * stdout :=
  match report_header with
  | Py.Raise e => (Py.Raise e, out)
  | Py.Ok header => report_loop projects start_date end_date [header] out
  end.

Definition generate_label_report (projects : list (string * string))
    (start_date end_date : datetime) (tab_name : string) (out : stdout)
    : Py.result sheet_update * stdout :=
  match report_table projects start_date end_date out with
  | (Py.Raise e, out) => (Py.Raise e, out)
  | (Py.Ok values, out) => (write_to_gsheet values tab_name, out)
  end.

End Exporter.

(** ** Specification-side definitions *)

(** Ascending by timestamp: each event is no later than its successor. *)
Definition time_le (a b : event) : Prop := Datetime.leb (snd a) (snd b) = true.

Definition sorted_ascending (events : list event) : Prop := Sorted time_le events.

(** The candidate start after scanning [pre] from the candidate [start]. *)
Definition latest_or (label : string) (pre : list event) (start : option datetime)
    : option datetime :=
  match latest_occurrence label pre with
  | Some t => Some t
  | None => start
  end.

(** The recognised label set: the keys of [LABELS]. *)
Definition RECOGNIZED : list string :=
  [LABEL_DOING; LABEL_REVIEW; LABEL_READY_FOR_QA; LABEL_WAITING_FOR_PROD;
   LABEL_RELEASED].

(** A raw event the normaliser must retain: its label descriptor is present
    and names a recognised label. *)
Definition recognized (ev : raw_event) : bool :=
  match label ev with
  | Some label_name => in_LABELS label_name
  | None => false
  end.

(** [e] is the normalised form of the raw event [ev]. *)
Definition normal_form (fromisoformat : string -> Py.result datetime)
    (ev : raw_event) (e : event) : Prop :=
  label ev = Some (fst e)
  /\ parse_datetime fromisoformat (created_at ev) = Py.Ok (snd e).

(** A datetime as microseconds since 0001-01-01T00:00:00 minus one day. *)
Definition timestamp_us (d : datetime) : Z :=
  (toordinal d * 86400 + hour d * 3600 + minute d * 60 + second d) * 1000000
  + microsecond d.

(** Elapsed days: the seconds from [start] to [end] as a binary64 number,
    divided by 86400. *)
Definition elapsed_days (start_dt end_dt : datetime) : Float64.float :=
  Float64.div
    (Float64.int_truediv (timestamp_us end_dt - timestamp_us start_dt) 1000000)
    (Float64.of_int 86400).

Definition blank_triple : list value := [VStr ""; VStr ""; VStr ""].

(** The three cells of one transition. *)
Definition triple_of (r : option datetime * option datetime) : list value :=
  match r with
  | (Some s, Some e) =>
      [VStr (strftime_gsheet s); VStr (strftime_gsheet e);
       VFloat (elapsed_days s e)]
  | _ => blank_triple
  end.

Definition both_present (r : option datetime * option datetime) : bool :=
  match r with
  | (Some _, Some _) => true
  | _ => false
  end.

Definition blank (v : value) : bool :=
  match v with
  | VStr s => is_empty s
  | _ => false
  end.

Definition all_blank (cells : list value) : bool := forallb blank cells.

(** The rows one issue contributes to the table: none when every cell is
    blank, else one row headed by the issue number [iid]. *)
Definition issue_rows (i : issue)
    (date_changes : list (option datetime * option datetime)) : table :=
  let cells := List.concat (map triple_of date_changes) in
  if all_blank cells then [] else [VInt (iid i) :: cells].

Definition project_rows
    (l : list (issue * list (option datetime * option datetime))) : table :=
  flat_map (fun x => issue_rows (fst x) (snd x)) l.

(** The value of a finite binary64 number as a rational. *)
Definition float_to_Q (x : Float64.float) : QArith_base.Q :=
  match x with
  | S754_finite s m e =>
      QArith_base.Qmult (QArith_base.inject_Z (cond_Zopp s (Zpos m)))
                        (QArith_base.Qpower (QArith_base.Qmake 2 1) e)
  | _ => QArith_base.Qmake 0 1
  end.

(** The header row: two identifying columns, then three per transition. *)
Definition HEADER : list value :=
  [VStr "Project"; VStr "Issue #";
   VStr "Doing"; VStr "Review"; VStr "Nb. days";
   VStr "Review"; VStr "QA"; VStr "Nb. days";
   VStr "QA"; VStr "Waiting for Prod"; VStr "Nb. days";
   VStr "Waiting for Prod"; VStr "Released"; VStr "Nb. days";
   VStr "Doing"; VStr "Released"; VStr "Nb. days"].

Definition width (n : nat) (row : list value) : Prop := List.length row = n.

(** Two issue objects that carry the same label events and the same issue
    number; their storage ids may differ. *)
Definition same_input (i i' : issue) : Prop :=
  resourcelabelevents i = resourcelabelevents i' /\ iid i = iid i'.

(** Month and day of the zero-based day [n] of a year: the last steps of
    [ord2ymd]. *)
Definition month_day (n : Z) (leapyear : bool) : Z * Z :=
  let m := Z.shiftr (n + 50) 5 in
  let preceding := nth (Z.to_nat m) DAYS_BEFORE_MONTH 0
                   + b2z ((2 <? m) && leapyear) in
  if n <? preceding then
    let m' := m - 1 in
    let preceding' := preceding
                      - (nth (Z.to_nat m') DAYS_IN_MONTH 0
                         + b2z ((m' =? 2) && leapyear)) in
    (m', n - preceding' + 1)
  else (m, n - preceding + 1).

(** [month_day] lands on a day of the calendar and inverts
    [days_before_month]. *)
Definition month_day_ok (leapyear : bool) (k : nat) : bool :=
  let n := Z.of_nat k in
  let '(m, d) := month_day n leapyear in
  (1 <=? m) && (m <=? 12) && (1 <=? d)
  && (d <=? (if (m =? 2) && leapyear then 29
             else nth (Z.to_nat m) DAYS_IN_MONTH 0))
  && (nth (Z.to_nat m) DAYS_BEFORE_MONTH 0 + b2z ((2 <? m) && leapyear) + d
      =? n + 1).

(** Column number of a column letter: [A] is 1. *)
Definition column_number (c : ascii) : nat := nat_of_ascii c - 64.

(** ** Further specification-side definitions *)

(** The string made of [k] copies of [c]. *)
Fixpoint replicate_char (k : nat) (c : ascii) : string :=
  match k with
  | O => EmptyString
  | S k' => String c (replicate_char k' c)
  end.

Fixpoint last_char (s : string) : option ascii :=
  match s with
  | EmptyString => None
  | String a EmptyString => Some a
  | String _ s' => last_char s'
  end.

(** A datetime the [datetime] constructor accepts. *)
Definition valid_datetime (d : datetime) : Prop :=
  valid_date (mkdate (year d) (month d) (day d))
  /\ 0 <= hour d < 24 /\ 0 <= minute d < 60 /\ 0 <= second d < 60
  /\ 0 <= microsecond d < 1000000.



(** The line echoed when the loop reaches position [idx]. *)
Definition progress_message (idx : nat) : string :=
  ("Treated " ++ decimal_nat idx ++ " issues")%string.

(** The positions among [idx, idx + n) at which the loop echoes. *)
Definition progress_positions (idx n : nat) : list nat :=
  filter (fun k => negb (k =? 0)%nat && (k mod 100 =? 0)%nat) (seq idx n).

(** The rows of a project as they enter the table: the project's name, as
    the tracker reports it, in front of each row. *)
Definition named_rows (p : project) (rows : table) : table :=
  map (fun v => VStr (name p) :: v) rows.

(** [0.0 <= x] decided on the shape of [x]. *)
Definition nonneg_float (x : Float64.float) : Prop :=
  match x with
  | S754_zero _ | S754_finite false _ _ | S754_infinity false => True
  | _ => False
  end.

(** [t] is the instant of the event [e]. *)
Definition at_time (t : datetime) (e : event) : bool :=
  match cmp (snd e) t with Eq => true | _ => false end.

(** ** The spreadsheet behind [write_to_gsheet] *)

(** A tab of the spreadsheet: its title and the size of its grid. *)
Record worksheet : Type := mkworksheet {
  ws_title : string;
  ws_rows : nat;
  ws_cols : nat
}.

Definition spreadsheet : Type := list worksheet.

(** [sheet.worksheet(title)]: the first tab with that title; [None] stands
    for [WorksheetNotFound]. *)
Fixpoint find_worksheet (sheet : spreadsheet) (title : string)
    : option worksheet :=
  match sheet with
  | [] => None
  | ws :: sheet' =>
      if String.eqb (ws_title ws) title then Some ws
      else find_worksheet sheet' title
  end.

(** [write_to_gsheet] with the spreadsheet made explicit: the lengths are
    read first, then the tab is looked up, or added with the size of the
    table, and only then is the range computed and the update sent.  The
    spreadsheet is returned as the call leaves it, also when it raises. *)
Definition write_to_gsheet_in (sheet : spreadsheet) (values : table)
    (tab_name : string)
    : Py.result (worksheet * sheet_update) * spreadsheet :=
  let nb_rows := List.length values in
  match values with
  | [] => (Py.Raise Py.IndexError, sheet)
  | row0 :: _ =>
      let nb_cols := List.length row0 in
      let '(ws, sheet') :=
        match find_worksheet sheet tab_name with
        | Some ws => (ws, sheet)
        | None =>
            let ws := mkworksheet tab_name nb_rows nb_cols in
            (ws, sheet ++ [ws])
        end in
      (range <- update_range values ;;
       Py.Ok (ws, mkupdate tab_name range values), sheet')
  end.

(** ** Sample data *)

Definition jan (d h : Z) : datetime := mkdatetime 2024 1 d h 0 0 0.

Definition sample_events : list event :=
  [ (LABEL_DOING, jan 1 0); (LABEL_DOING, jan 2 0); (LABEL_REVIEW, jan 3 12);
    (LABEL_DOING, jan 4 0); (LABEL_REVIEW, jan 5 0); (LABEL_RELEASED, jan 6 0) ].

Definition sample_raw : list raw_event :=
  [ mkraw (Some LABEL_REVIEW) "2024-01-03T12:00:00.000Z";
    mkraw None "not a date";
    mkraw (Some "bug") "not a date either";
    mkraw (Some LABEL_DOING) "2024-01-02T00:00:00.000Z";
    mkraw (Some LABEL_RELEASED) "2024-01-06T00:00:00.000Z" ].

Definition sample_issue : issue := mkissue 9001 7 sample_raw.

(** An issue that never carried a status label. *)
Definition quiet_issue : issue := mkissue 9002 8 [mkraw (Some "bug") "2024-01-02"].

Definition sample_project : project :=
  mkproject "exporter" [sample_issue; quiet_issue].

Definition sample_server (project_id : string) : Py.result project :=
  Py.Ok sample_project.

Definition sample_date_changes : list (option datetime * option datetime) :=
  [ (Some (jan 2 0), Some (jan 3 12)); (Some (jan 3 12), None); (None, None);
    (None, Some (jan 6 0)); (Some (jan 2 0), Some (jan 6 0)) ].

(** * Properties *)

(** ** Ordering of datetimes *)

Module DatetimeFacts.

Lemma tuple_cmp_refl (a : list Z) : tuple_cmp a a = Eq.
Proof.
  induction a as [|x a IH]; simpl; [reflexivity|].
  now rewrite Z.compare_refl.
Qed.

Lemma tuple_cmp_antisym (a b : list Z) :
  tuple_cmp b a = CompOpp (tuple_cmp a b).
Proof.
  revert b; induction a as [|x a IH]; intros [|y b]; simpl; try reflexivity.
  rewrite (Z.compare_antisym x y).
  destruct (Z.compare x y); simpl; auto.
Qed.

Lemma tuple_cmp_le_trans (a b c : list Z) :
  tuple_cmp a b <> Gt -> tuple_cmp b c <> Gt -> tuple_cmp a c <> Gt.
Proof.
  revert b c; induction a as [|x a IH]; intros [|y b] [|z c]; simpl;
    try congruence.
  destruct (Z.compare_spec x y) as [E1|L1|G1],
           (Z.compare_spec y z) as [E2|L2|G2];
    try congruence;
    destruct (Z.compare_spec x z) as [E3|L3|G3];
    try lia; try congruence.
  apply IH.
Qed.

Lemma leb_refl (a : datetime) : Datetime.leb a a = true.
Proof. unfold Datetime.leb, cmp. now rewrite tuple_cmp_refl. Qed.

Lemma ltb_irrefl (a : datetime) : Datetime.ltb a a = false.
Proof. unfold Datetime.ltb, cmp. now rewrite tuple_cmp_refl. Qed.

Lemma leb_trans (a b c : datetime) :
  Datetime.leb a b = true -> Datetime.leb b c = true -> Datetime.leb a c = true.
Proof.
  unfold Datetime.leb, cmp; intros Hab Hbc.
  assert (H : tuple_cmp (fields a) (fields c) <> Gt).
  { apply (tuple_cmp_le_trans _ (fields b)).
    - destruct (tuple_cmp (fields a) (fields b)); congruence.
    - destruct (tuple_cmp (fields b) (fields c)); congruence. }
  destruct (tuple_cmp (fields a) (fields c)); congruence.
Qed.

(** [not (y < x)] is [x <= y]: the order is total. *)
Lemma ltb_false_leb (x y : datetime) :
  Datetime.ltb y x = false -> Datetime.leb x y = true.
Proof.
  unfold Datetime.ltb, Datetime.leb, cmp.
  rewrite (tuple_cmp_antisym (fields y) (fields x)).
  destruct (tuple_cmp (fields y) (fields x)); simpl; congruence.
Qed.

Lemma ltb_leb (x y : datetime) :
  Datetime.ltb x y = true -> Datetime.leb x y = true.
Proof.
  unfold Datetime.ltb, Datetime.leb.
  destruct (cmp x y); congruence.
Qed.

Lemma time_le_trans : Relations_1.Transitive time_le.
Proof. intros a b c; unfold time_le; apply leb_trans. Qed.

End DatetimeFacts.

(** ** The transition detector *)

Lemma last_cons_default {A} (x : A) (l : list A) (d : A) :
  last (x :: l) d = last l x.
Proof.
  revert x d; induction l as [|y l IH]; intros x d; [reflexivity|].
  change (last (x :: y :: l) d) with (last (y :: l) d).
  now rewrite (IH y d), (IH y x).
Qed.

Lemma latest_occurrence_cons (label : string) (e : event) (l : list event) :
  latest_occurrence label (e :: l) =
    if String.eqb (fst e) label then latest_or label l (Some (snd e))
    else latest_occurrence label l.
Proof.
  unfold latest_or, latest_occurrence; simpl.
  destruct (String.eqb (fst e) label); [|reflexivity].
  simpl map. rewrite last_cons_default.
  destruct (filter _ l) as [|e' f']; [reflexivity|].
  simpl map. rewrite !last_cons_default.
  clear. revert e'. induction f' as [|e'' f' IH]; intros e'; [reflexivity|].
  simpl map. rewrite !last_cons_default. apply IH.
Qed.

Lemma latest_or_cons (label : string) (e : event) (l : list event) start :
  latest_or label (e :: l) start =
    latest_or label l (if String.eqb (fst e) label then Some (snd e) else start).
Proof.
  unfold latest_or at 1. rewrite latest_occurrence_cons.
  destruct (String.eqb (fst e) label); [|reflexivity].
  unfold latest_or. destruct (latest_occurrence label l); reflexivity.
Qed.

Lemma not_occurs_cons (label : string) (e : event) (l : list event) :
  ~ occurs label (e :: l) ->
  String.eqb (fst e) label = false /\ ~ occurs label l.
Proof.
  unfold occurs; simpl; intros H; split.
  - apply String.eqb_neq; intuition.
  - intuition.
Qed.

(** Scanning a prefix free of [final_label] only updates the candidate. *)
Lemma scan_events_prefix (pre rest : list event) (sl fl : string) start :
  ~ occurs fl pre ->
  scan_events (pre ++ rest) sl fl start
  = scan_events rest sl fl (latest_or sl pre start).
Proof.
  revert start; induction pre as [|[l t] pre IH]; intros start Hno.
  - reflexivity.
  - apply not_occurs_cons in Hno as [Hl Hno]; simpl in Hl.
    simpl. rewrite Hl, latest_or_cons; simpl.
    destruct (String.eqb l sl); now apply IH.
Qed.

Lemma latest_occurrence_absent (label : string) (l : list event) :
  ~ occurs label l -> latest_occurrence label l = None.
Proof.
  induction l as [|e l IH]; intros Hno; [reflexivity|].
  apply not_occurs_cons in Hno as [Hl Hno].
  rewrite latest_occurrence_cons, Hl. now apply IH.
Qed.

(** C1. Transition detector: [end] is the timestamp of the first event
    carrying [final_label] (whatever follows it is ignored) and [start] is
    the timestamp of the last event carrying [starting_label] before that
    one; when [final_label] never occurs, [end] is absent and [start] is the
    last [starting_label] timestamp of the whole sequence; when neither
    label occurs the result is [(None, None)].  This holds for every event
    list, sorted or not. *)
Theorem find_events_dates_changes_spec (events : list event) (sl fl : string) :
  (forall pre t post,
      events = pre ++ (fl, t) :: post -> ~ occurs fl pre ->
      find_events_dates_changes events sl fl
      = (latest_occurrence sl pre, Some t))
  /\ (~ occurs fl events ->
      find_events_dates_changes events sl fl
      = (latest_occurrence sl events, None))
  /\ (~ occurs sl events -> ~ occurs fl events ->
      find_events_dates_changes events sl fl = (None, None)).
Proof.
  unfold find_events_dates_changes.
  assert (Hnone : ~ occurs fl events ->
                  scan_events events sl fl None
                  = (latest_occurrence sl events, None)).
  { intros Hno.
    rewrite <- (app_nil_r events) at 1.
    rewrite scan_events_prefix by assumption.
    unfold latest_or; simpl.
    destruct (latest_occurrence sl events); reflexivity. }
  split; [|split].
  - intros pre t post -> Hno.
    rewrite scan_events_prefix by assumption.
    simpl. rewrite String.eqb_refl.
    unfold latest_or. destruct (latest_occurrence sl pre); reflexivity.
  - exact Hnone.
  - intros Hs Hf. rewrite (Hnone Hf).
    now rewrite latest_occurrence_absent.
Qed.

Lemma scan_events_ordered (events : list event) (sl fl : string) start s e :
  StronglySorted time_le events ->
  (forall s0, start = Some s0 ->
              Forall (fun ev : event => Datetime.leb s0 (snd ev) = true) events) ->
  scan_events events sl fl start = (Some s, Some e) ->
  Datetime.leb s e = true.
Proof.
  revert start; induction events as [|[l t] rest IH]; intros start Hsorted Hstart.
  - discriminate.
  - inversion Hsorted as [|? ? Hrest Hhd]; subst.
    simpl. destruct (String.eqb l fl).
    + intros [= -> <-].
      specialize (Hstart s eq_refl). now inversion Hstart.
    + destruct (String.eqb l sl).
      * apply IH; [assumption|]. intros s0 [= <-]. exact Hhd.
      * apply IH; [assumption|]. intros s0 Hs0.
        specialize (Hstart s0 Hs0). now inversion Hstart.
Qed.

(** ** Sorting *)

Lemma insert_by_time_perm (x : event) (l : list event) :
  Permutation (x :: l) (insert_by_time x l).
Proof.
  induction l as [|y l IH]; simpl; [apply Permutation_refl|].
  destruct (Datetime.ltb (snd y) (snd x)).
  - rewrite perm_swap. now apply perm_skip.
  - apply Permutation_refl.
Qed.

Lemma sorted_by_time_perm (l : list event) : Permutation l (sorted_by_time l).
Proof.
  induction l as [|x l IH]; simpl; [constructor|].
  rewrite <- insert_by_time_perm. now apply perm_skip.
Qed.

Lemma insert_by_time_hd (a x : event) (l : list event) :
  time_le a x -> HdRel time_le a l -> HdRel time_le a (insert_by_time x l).
Proof.
  intros Hax Hal; destruct l as [|y l]; simpl.
  - now constructor.
  - inversion Hal; subst.
    destruct (Datetime.ltb (snd y) (snd x)); now constructor.
Qed.

Lemma insert_by_time_sorted (x : event) (l : list event) :
  sorted_ascending l -> sorted_ascending (insert_by_time x l).
Proof.
  unfold sorted_ascending.
  induction l as [|y l IH]; intros Hs; simpl.
  - repeat constructor.
  - inversion Hs as [|? ? Hl Hhd]; subst.
    destruct (Datetime.ltb (snd y) (snd x)) eqn:Hlt.
    + constructor; [now apply IH|].
      apply insert_by_time_hd; [|assumption].
      now apply DatetimeFacts.ltb_leb.
    + constructor; [assumption|].
      constructor. now apply DatetimeFacts.ltb_false_leb.
Qed.

Lemma sorted_by_time_sorted (l : list event) : sorted_ascending (sorted_by_time l).
Proof.
  induction l as [|x l IH]; simpl.
  - constructor.
  - now apply insert_by_time_sorted.
Qed.

(** Stability: an event stays behind the events of equal or earlier time
    that preceded it, so an already sorted list is returned as it is. *)
Lemma sorted_by_time_fixpoint (l : list event) :
  sorted_ascending l -> sorted_by_time l = l.
Proof.
  unfold sorted_ascending.
  induction l as [|x l IH]; intros Hs; [reflexivity|].
  inversion Hs as [|? ? Hl Hhd]; subst.
  simpl. rewrite (IH Hl).
  destruct l as [|y l]; [reflexivity|].
  inversion Hhd as [|? ? Hxy]; subst. simpl.
  unfold time_le, Datetime.leb in Hxy. unfold Datetime.ltb, cmp in *.
  rewrite (DatetimeFacts.tuple_cmp_antisym (fields (snd x)) (fields (snd y))).
  destruct (tuple_cmp (fields (snd x)) (fields (snd y))); simpl;
    congruence.
Qed.

Lemma window_filter_both (sd ed : datetime) r (s e : datetime) :
  window_filter sd ed r = (Some s, Some e) -> r = (Some s, Some e).
Proof.
  destruct r as [[s'|] [e'|]]; simpl; try congruence.
  destruct (negb _); congruence.
Qed.

(** C5. A transition for which the detector returns both a start and an
    end has [end >= start]: on every event list sorted ascending by
    timestamp, and so in every result of [find_issue_dates_changes], which
    runs the detector on the sorted events. *)
Theorem find_events_dates_changes_end_after_start (s e : datetime) :
  (forall events sl fl,
      sorted_ascending events ->
      find_events_dates_changes events sl fl = (Some s, Some e) ->
      Datetime.leb s e = true)
  /\ (forall fromisoformat i start_date end_date date_changes,
        find_issue_dates_changes fromisoformat i start_date end_date
        = Py.Ok date_changes ->
        In (Some s, Some e) date_changes ->
        Datetime.leb s e = true).
Proof.
  assert (Hdetector : forall events sl fl,
             sorted_ascending events ->
             find_events_dates_changes events sl fl = (Some s, Some e) ->
             Datetime.leb s e = true).
  { intros events sl fl Hsorted.
    apply scan_events_ordered.
    - apply Sorted_StronglySorted;
        [exact DatetimeFacts.time_le_trans | exact Hsorted].
    - discriminate. }
  split; [exact Hdetector|].
  intros fromisoformat i sd ed dcs.
  unfold find_issue_dates_changes, normalized_events.
  destruct (relevant_events fromisoformat (resourcelabelevents i))
    as [kept|]; cbn [Py.bind]; [|discriminate].
  intros [= <-] Hin. simpl in Hin.
  pose proof (sorted_by_time_sorted kept) as Hsorted.
  destruct Hin as [Htr|[Htr|[Htr|[Htr|[Htr|[]]]]]];
    apply window_filter_both in Htr;
    exact (Hdetector _ _ _ Hsorted Htr).
Qed.

(** ** The window filter *)

(** C2. Window filter over the half-open window [[start_date, end_date)]:
    a result with both fields present is kept when
    [start_date <= end < end_date] and has both fields nulled otherwise; so
    [end = end_date] is nulled, and [end = start_date] is kept (the window
    being non-empty); a result with an absent field is returned as it is. *)
Theorem window_filter_spec (start_date end_date : datetime) :
  (forall s e,
      Datetime.leb start_date e = true -> Datetime.ltb e end_date = true ->
      window_filter start_date end_date (Some s, Some e) = (Some s, Some e))
  /\ (forall s e,
      Datetime.leb start_date e = false \/ Datetime.ltb e end_date = false ->
      window_filter start_date end_date (Some s, Some e) = (None, None))
  /\ (forall s,
      window_filter start_date end_date (Some s, Some end_date) = (None, None))
  /\ (forall s,
      Datetime.ltb start_date end_date = true ->
      window_filter start_date end_date (Some s, Some start_date)
      = (Some s, Some start_date))
  /\ (forall r,
      fst r = None \/ snd r = None ->
      window_filter start_date end_date r = r).
Proof.
  repeat split.
  - intros s e H1 H2. simpl. now rewrite H1, H2.
  - intros s e [H|H]; simpl; rewrite H; simpl; [reflexivity|].
    now rewrite andb_false_r.
  - intros s. simpl.
    now rewrite DatetimeFacts.ltb_irrefl, andb_false_r.
  - intros s H. simpl.
    now rewrite DatetimeFacts.leb_refl, H.
  - intros [[s|] [e|]] [H|H]; simpl in *; congruence.
Qed.

(** ** Row cells *)

Lemma to_microseconds_timedelta_of (d s us : Z) :
  to_microseconds (timedelta_of d s us) = (d * 86400 + s) * 1000000 + us.
Proof.
  unfold to_microseconds, timedelta_of.
  cbn [td_days td_seconds td_microseconds].
  set (u := (d * 86400 + s) * 1000000 + us).
  pose proof (Z.div_mod u 1000000 ltac:(lia)) as H1.
  pose proof (Z.div_mod (u / 1000000) 86400 ltac:(lia)) as H2.
  lia.
Qed.

Lemma sub_microseconds (a b : datetime) :
  to_microseconds (Datetime.sub a b) = timestamp_us a - timestamp_us b.
Proof.
  unfold Datetime.sub. rewrite to_microseconds_timedelta_of.
  unfold timestamp_us. lia.
Qed.

Lemma nb_days_elapsed (s e : datetime) : nb_days s e = elapsed_days s e.
Proof.
  unfold nb_days, elapsed_days, Float64.total_seconds.
  now rewrite sub_microseconds.
Qed.

Lemma extend_issue_values_triple (acc : list value)
    (r : option datetime * option datetime) :
  extend_issue_values acc r = acc ++ triple_of r.
Proof.
  destruct r as [[s|] [e|]]; simpl; try reflexivity.
  now rewrite nb_days_elapsed.
Qed.

Lemma fold_extend_issue_values
    (dcs : list (option datetime * option datetime)) (acc : list value) :
  fold_left extend_issue_values dcs acc = acc ++ List.concat (map triple_of dcs).
Proof.
  revert acc; induction dcs as [|r dcs IH]; intros acc; simpl.
  - now rewrite app_nil_r.
  - now rewrite IH, extend_issue_values_triple, app_assoc.
Qed.

Lemma format_date_changes_concat
    (dcs : list (option datetime * option datetime)) :
  format_date_changes dcs = List.concat (map triple_of dcs).
Proof. unfold format_date_changes. now rewrite fold_extend_issue_values. Qed.

(** C3. The cells of a row are the concatenation, transition by
    transition, of a triple that holds the two formatted datetimes and the
    elapsed days when start and end are both present, and three blank cells
    when either is absent.  The elapsed days are the seconds between the two
    datetimes divided by 86400, in binary64; from 2024-01-01T00:00:00 to
    2024-01-02T12:00:00 they are exactly 1.5. *)
Theorem format_date_changes_triples :
  (forall dcs, format_date_changes dcs = List.concat (map triple_of dcs))
  /\ (forall s e,
        triple_of (Some s, Some e)
        = [VStr (strftime_gsheet s); VStr (strftime_gsheet e);
           VFloat (Float64.div
                     (Float64.int_truediv (timestamp_us e - timestamp_us s)
                                          1000000)
                     (Float64.of_int 86400))])
  /\ (forall e, triple_of (None, e) = [VStr ""; VStr ""; VStr ""])
  /\ (forall s, triple_of (s, None) = [VStr ""; VStr ""; VStr ""])
  /\ (let d := elapsed_days (mkdatetime 2024 1 1 0 0 0 0)
                            (mkdatetime 2024 1 2 12 0 0 0) in
      d = S754_finite false 6755399441055744 (-52)
      /\ QArith_base.Qeq (float_to_Q d) (QArith_base.Qmake 3 2)).
Proof.
  split; [exact format_date_changes_concat|].
  split; [reflexivity|].
  split; [reflexivity|].
  split; [intros [s|]; reflexivity|].
  split; vm_compute; reflexivity.
Qed.

(** *** Blank rows *)

Lemma is_empty_app_String (a b : string) (c : ascii) :
  is_empty (a ++ String c b)%string = false.
Proof. destruct a; reflexivity. Qed.

Lemma strftime_gsheet_nonempty (d : datetime) :
  is_empty (strftime_gsheet d) = false.
Proof. unfold strftime_gsheet. apply is_empty_app_String. Qed.

Lemma eqb_empty (s : string) : String.eqb s "" = is_empty s.
Proof. destruct s; reflexivity. Qed.

Lemma any_triple_of (r : option datetime * option datetime) :
  any (triple_of r) = both_present r.
Proof.
  destruct r as [[s|] [e|]]; try reflexivity.
  unfold any, triple_of. cbn [existsb truthy].
  now rewrite eqb_empty, strftime_gsheet_nonempty.
Qed.

Lemma all_blank_triple_of (r : option datetime * option datetime) :
  all_blank (triple_of r) = negb (both_present r).
Proof.
  destruct r as [[s|] [e|]]; try reflexivity.
  unfold all_blank, triple_of. cbn [forallb blank].
  now rewrite strftime_gsheet_nonempty.
Qed.

Lemma any_app (a b : list value) : any (a ++ b) = any a || any b.
Proof. apply existsb_app. Qed.

Lemma all_blank_app (a b : list value) :
  all_blank (a ++ b) = all_blank a && all_blank b.
Proof. apply forallb_app. Qed.

Lemma any_cells (dcs : list (option datetime * option datetime)) :
  any (List.concat (map triple_of dcs)) = existsb both_present dcs.
Proof.
  induction dcs as [|r dcs IH]; [reflexivity|].
  simpl. now rewrite any_app, IH, any_triple_of.
Qed.

Lemma all_blank_cells (dcs : list (option datetime * option datetime)) :
  all_blank (List.concat (map triple_of dcs)) = negb (existsb both_present dcs).
Proof.
  induction dcs as [|r dcs IH]; [reflexivity|].
  simpl. now rewrite all_blank_app, IH, all_blank_triple_of, negb_orb.
Qed.

Lemma any_not_all_blank (dcs : list (option datetime * option datetime)) :
  negb (any (format_date_changes dcs))
  = all_blank (List.concat (map triple_of dcs)).
Proof.
  now rewrite format_date_changes_concat, any_cells, all_blank_cells.
Qed.

(** ** The pipeline *)

Lemma in_LABELS_recognized (label_name : string) :
  in_LABELS label_name = true -> In label_name RECOGNIZED.
Proof.
  unfold in_LABELS. rewrite existsb_exists.
  intros [x [Hin Heq]]. apply String.eqb_eq in Heq. subst x. exact Hin.
Qed.

Lemma length_cells (dcs : list (option datetime * option datetime)) :
  List.length (List.concat (map triple_of dcs)) = (3 * List.length dcs)%nat.
Proof.
  induction dcs as [|r dcs IH]; [reflexivity|].
  simpl List.concat. rewrite length_app, IH.
  destruct r as [[s|] [e|]]; simpl; lia.
Qed.

Section PipelineProperties.

Variable fromisoformat : string -> Py.result datetime.
Variable gl_projects_get : string -> Py.result project.

(** *** The event normaliser *)

Lemma relevant_events_normal_form (raw : list raw_event) (evs : list event) :
  relevant_events fromisoformat raw = Py.Ok evs ->
  Forall2 (normal_form fromisoformat) (filter recognized raw) evs.
Proof.
  revert evs; induction raw as [|ev raw IH]; intros evs; simpl.
  - intros [= <-]. constructor.
  - unfold recognized at 1.
    destruct (label ev) as [label_name|] eqn:Hlabel; [|now apply IH].
    destruct (in_LABELS label_name); [|now apply IH].
    destruct (parse_datetime fromisoformat (created_at ev)) as [t|] eqn:Ht;
      simpl; [|discriminate].
    destruct (relevant_events fromisoformat raw) as [evs'|]; simpl;
      [|discriminate].
    intros [= <-]. constructor; [|now apply IH].
    split; assumption.
Qed.

Lemma relevant_events_filter (raw : list raw_event) :
  relevant_events fromisoformat (filter recognized raw)
  = relevant_events fromisoformat raw.
Proof.
  induction raw as [|ev raw IH]; [reflexivity|].
  simpl. unfold recognized at 1.
  destruct (label ev) as [label_name|] eqn:Hlabel; [|exact IH].
  destruct (in_LABELS label_name) eqn:Hin; [|exact IH].
  simpl. now rewrite Hlabel, Hin, IH.
Qed.

Lemma relevant_events_total (raw : list raw_event) :
  (forall ev, In ev raw -> recognized ev = true ->
              exists t, parse_datetime fromisoformat (created_at ev) = Py.Ok t) ->
  exists evs, relevant_events fromisoformat raw = Py.Ok evs.
Proof.
  induction raw as [|ev raw IH]; intros Hparse; simpl.
  - now exists [].
  - destruct IH as [evs Hevs].
    { intros ev' Hin. apply Hparse. now right. }
    specialize (Hparse ev (or_introl eq_refl)). unfold recognized in Hparse.
    destruct (label ev) as [label_name|]; [|now exists evs].
    destruct (in_LABELS label_name); [|now exists evs].
    destruct (Hparse eq_refl) as [t Ht].
    rewrite Ht, Hevs. simpl. now eexists.
Qed.

Lemma relevant_events_labels (raw : list raw_event) (evs : list event) :
  relevant_events fromisoformat raw = Py.Ok evs ->
  Forall (fun e : event => In (fst e) RECOGNIZED) evs.
Proof.
  revert evs; induction raw as [|ev raw IH]; intros evs; simpl.
  - intros [= <-]. constructor.
  - destruct (label ev) as [label_name|]; [|now apply IH].
    destruct (in_LABELS label_name) eqn:Hin; [|now apply IH].
    destruct (parse_datetime fromisoformat (created_at ev)) as [t|];
      simpl; [|discriminate].
    destruct (relevant_events fromisoformat raw) as [evs'|]; simpl;
      [|discriminate].
    intros [= <-]. constructor; [|now apply IH].
    now apply in_LABELS_recognized.
Qed.

(** C6. Event normaliser: its output is sorted ascending by timestamp and
    is a rearrangement of the normal forms of exactly the raw events
    whose label descriptor is present and names one of the five recognised
    labels; it is produced whenever the timestamps of those events parse;
    and two issues whose recognised raw events agree have the same
    normalised events and the same transition results, so the other events
    have no influence. *)
Theorem normalized_events_spec (i : issue) :
  (forall evs,
      normalized_events fromisoformat i = Py.Ok evs ->
      sorted_ascending evs
      /\ (exists kept,
             Forall2 (normal_form fromisoformat)
                     (filter recognized (resourcelabelevents i)) kept
             /\ Permutation kept evs)
      /\ Forall (fun e : event => In (fst e) RECOGNIZED) evs)
  /\ ((forall ev, In ev (resourcelabelevents i) -> recognized ev = true ->
                  exists t, parse_datetime fromisoformat (created_at ev)
                            = Py.Ok t) ->
      exists evs, normalized_events fromisoformat i = Py.Ok evs)
  /\ (forall i' start_date end_date,
      filter recognized (resourcelabelevents i')
      = filter recognized (resourcelabelevents i) ->
      normalized_events fromisoformat i' = normalized_events fromisoformat i
      /\ find_issue_dates_changes fromisoformat i' start_date end_date
         = find_issue_dates_changes fromisoformat i start_date end_date).
Proof.
  unfold find_issue_dates_changes, normalized_events.
  split; [|split].
  - intros evs.
    destruct (relevant_events fromisoformat (resourcelabelevents i))
      as [kept|] eqn:Hkept; simpl; [|discriminate].
    intros [= <-]. split; [apply sorted_by_time_sorted|]. split.
    + exists kept. split.
      * now apply relevant_events_normal_form.
      * apply sorted_by_time_perm.
    + apply (Permutation_Forall (sorted_by_time_perm kept)).
      now apply (relevant_events_labels (resourcelabelevents i)).
  - intros Hparse.
    destruct (relevant_events_total _ Hparse) as [kept Hkept].
    rewrite Hkept. simpl. now eexists.
  - intros i' start_date end_date Hsame.
    rewrite <- (relevant_events_filter (resourcelabelevents i')), Hsame,
      relevant_events_filter.
    split; reflexivity.
Qed.

(** *** One project *)

Lemma find_issue_dates_changes_length (i : issue) (sd ed : datetime) dc :
  find_issue_dates_changes fromisoformat i sd ed = Py.Ok dc ->
  List.length dc = 5%nat.
Proof.
  unfold find_issue_dates_changes.
  destruct (normalized_events fromisoformat i); simpl; [|discriminate].
  intros [= <-]. reflexivity.
Qed.

Lemma project_loop_rows (todo : list issue) (sd ed : datetime) dcs :
  Forall2 (fun i dc => find_issue_dates_changes fromisoformat i sd ed = Py.Ok dc)
          todo dcs ->
  forall idx values out,
    fst (project_loop fromisoformat idx todo sd ed values out)
    = Py.Ok (values ++ project_rows (combine todo dcs)).
Proof.
  induction 1 as [|i dc todo dcs Hi Hrest IH]; intros idx values out; simpl.
  - now rewrite app_nil_r.
  - rewrite Hi, any_not_all_blank. unfold issue_rows.
    rewrite format_date_changes_concat.
    destruct (all_blank (List.concat (map triple_of dc))).
    + apply IH.
    + rewrite IH. now rewrite <- app_assoc.
Qed.

Lemma in_project_rows l (row : list value) :
  In row (project_rows l) <->
  exists i dc, In (i, dc) l
               /\ all_blank (format_date_changes dc) = false
               /\ row = VInt (iid i) :: format_date_changes dc.
Proof.
  unfold project_rows. rewrite in_flat_map. split.
  - intros [[i dc] [Hin Hrow]]. exists i, dc.
    unfold issue_rows in Hrow. simpl in Hrow.
    rewrite format_date_changes_concat.
    destruct (all_blank (List.concat (map triple_of dc))); [contradiction|].
    destruct Hrow as [<-|[]]. auto.
  - intros [i [dc [Hin [Hblank ->]]]]. exists (i, dc). split; [assumption|].
    unfold issue_rows. simpl.
    rewrite format_date_changes_concat in *. rewrite Hblank. now left.
Qed.

(** C4. Rows of a project: when the transition results of every issue
    are available, the table lists the issues in order, leaving out each
    issue whose cells are all blank and giving every other issue one row,
    its number [iid] (not its [id]) followed by its cells.  The cells of an
    issue are all blank exactly when none of its triples has both a start
    and an end. *)
Theorem find_project_date_changes_rows (p : project) (sd ed : datetime)
    (out : stdout) dcs :
  Forall2 (fun i dc => find_issue_dates_changes fromisoformat i sd ed = Py.Ok dc)
          (issues p) dcs ->
  fst (find_project_date_changes fromisoformat p sd ed out)
  = Py.Ok (project_rows (combine (issues p) dcs))
  /\ (forall row,
        In row (project_rows (combine (issues p) dcs)) <->
        exists i dc, In (i, dc) (combine (issues p) dcs)
                     /\ all_blank (format_date_changes dc) = false
                     /\ row = VInt (iid i) :: format_date_changes dc)
  /\ (forall dc,
        all_blank (format_date_changes dc) = negb (existsb both_present dc)).
Proof.
  intros H. split; [|split].
  - unfold find_project_date_changes.
    now rewrite (project_loop_rows _ _ _ _ H).
  - intros row. apply in_project_rows.
  - intros dc. rewrite format_date_changes_concat. apply all_blank_cells.
Qed.

(** *** Determinism *)

Lemma find_issue_dates_changes_events (i i' : issue) (sd ed : datetime) :
  resourcelabelevents i = resourcelabelevents i' ->
  find_issue_dates_changes fromisoformat i sd ed
  = find_issue_dates_changes fromisoformat i' sd ed.
Proof.
  intros H. unfold find_issue_dates_changes, normalized_events.
  now rewrite H.
Qed.

Lemma project_loop_same_input (todo todo' : list issue) (sd ed : datetime) :
  Forall2 same_input todo todo' ->
  forall idx idx' values out out',
    fst (project_loop fromisoformat idx todo sd ed values out)
    = fst (project_loop fromisoformat idx' todo' sd ed values out').
Proof.
  induction 1 as [|i i' todo todo' [Hev Hiid] Hrest IH];
    intros idx idx' values out out'; simpl; [reflexivity|].
  rewrite (find_issue_dates_changes_events i i' sd ed Hev), Hiid.
  destruct (find_issue_dates_changes fromisoformat i' sd ed) as [dc|e];
    [|reflexivity].
  destruct (negb (any (format_date_changes dc))); apply IH.
Qed.

Lemma same_input_refl (todo : list issue) : Forall2 same_input todo todo.
Proof. induction todo; constructor; [split; reflexivity | assumption]. Qed.

(** C9. Repeated runs: the rows computed for a list of issues depend
    only on each issue's raw events and number and on the window.  They are
    the same from any position of the loop counter and any state of the
    output stream, for issue objects that differ in their storage id, and
    in particular for a second run started where the first one ended. *)
Theorem project_rows_deterministic (todo todo' : list issue) (sd ed : datetime) :
  Forall2 same_input todo todo' ->
  (forall idx idx' out out',
      fst (project_loop fromisoformat idx todo sd ed [] out)
      = fst (project_loop fromisoformat idx' todo' sd ed [] out'))
  /\ (forall p_name p_name' out,
        let run1 := find_project_date_changes fromisoformat
                      (mkproject p_name todo) sd ed out in
        let run2 := find_project_date_changes fromisoformat
                      (mkproject p_name' todo') sd ed (snd run1) in
        fst run2 = fst run1).
Proof.
  intros H. split.
  - intros. now apply project_loop_same_input.
  - intros p_name p_name' out. cbv zeta.
    unfold find_project_date_changes. simpl issues.
    symmetry. now apply project_loop_same_input.
Qed.

(** *** Row widths *)

Lemma project_loop_widths (todo : list issue) (sd ed : datetime) :
  forall idx values out rows,
    Forall (width 16) values ->
    fst (project_loop fromisoformat idx todo sd ed values out) = Py.Ok rows ->
    Forall (width 16) rows.
Proof.
  induction todo as [|i todo IH]; intros idx values out rows Hv; simpl.
  - now intros [= <-].
  - destruct (find_issue_dates_changes fromisoformat i sd ed) as [dc|e] eqn:Hdc;
      [|discriminate].
    destruct (negb (any (format_date_changes dc))); [now apply IH|].
    apply IH. apply Forall_app. split; [assumption|].
    constructor; [|constructor].
    unfold width. simpl.
    rewrite format_date_changes_concat, length_cells.
    now rewrite (find_issue_dates_changes_length _ _ _ _ Hdc).
Qed.

Lemma report_loop_widths (projects : list (string * string)) (sd ed : datetime) :
  forall values out table,
    fst (report_loop fromisoformat gl_projects_get projects sd ed values out)
    = Py.Ok table ->
    exists rows, table = values ++ rows /\ Forall (width 17) rows.
Proof.
  induction projects as [|[project_name project_id] projects IH];
    intros values out table; simpl.
  - intros [= <-]. exists []. now rewrite app_nil_r.
  - destruct (gl_projects_get project_id) as [p|e]; [|discriminate].
    destruct (find_project_date_changes fromisoformat p sd ed _)
      as [[project_values|e] out'] eqn:Hp; [|discriminate].
    intros Htable. destruct (IH _ _ _ Htable) as [rows [-> Hrows]].
    exists (map (fun v => VStr (name p) :: v) project_values ++ rows).
    split; [now rewrite app_assoc|].
    apply Forall_app. split; [|assumption].
    assert (H16 : Forall (width 16) project_values).
    { unfold find_project_date_changes in Hp.
      eapply (project_loop_widths (issues p) sd ed 0%nat []);
        [constructor|].
      rewrite Hp. reflexivity. }
    clear -H16. induction H16 as [|v vs Hv _ IHvs]; constructor; [|assumption].
    unfold width in *. simpl. now rewrite Hv.
Qed.

(** C10. Table shape: the header has 17 cells, the rows of a project
    have 16 cells each, and every row of the assembled table, the header
    included, has 17 cells; so does every row passed to the sheet. *)
Theorem report_table_rectangular (projects : list (string * string))
    (sd ed : datetime) (out : stdout) :
  report_header = Py.Ok HEADER
  /\ width 17 HEADER
  /\ (forall p rows,
        fst (find_project_date_changes fromisoformat p sd ed out) = Py.Ok rows ->
        Forall (width 16) rows)
  /\ (forall values,
        fst (report_table fromisoformat gl_projects_get projects sd ed out)
        = Py.Ok values ->
        (exists rows, values = HEADER :: rows) /\ Forall (width 17) values)
  /\ (forall tab_name u,
        fst (generate_label_report fromisoformat gl_projects_get projects
               sd ed tab_name out) = Py.Ok u ->
        Forall (width 17) (u_values u)).
Proof.
  assert (Htable : forall values,
    fst (report_table fromisoformat gl_projects_get projects sd ed out)
    = Py.Ok values ->
    (exists rows, values = HEADER :: rows) /\ Forall (width 17) values).
  { intros values. unfold report_table.
    change report_header with (Py.Ok HEADER). intros H.
    destruct (report_loop_widths _ _ _ _ _ _ H) as [rows [-> Hrows]].
    split; [now exists rows|].
    constructor; [reflexivity | assumption]. }
  split; [reflexivity|]. split; [reflexivity|]. split; [|split].
  - intros p rows. unfold find_project_date_changes.
    apply project_loop_widths. constructor.
  - exact Htable.
  - intros tab_name u. unfold generate_label_report.
    destruct (report_table fromisoformat gl_projects_get projects sd ed out)
      as [[values|e] out'] eqn:Hv; [|discriminate].
    destruct (Htable values eq_refl) as [_ Hw].
    unfold write_to_gsheet. simpl.
    destruct (update_range values); simpl; [|discriminate].
    now intros [= <-].
Qed.

End PipelineProperties.

(** ** The calendar *)

Ltac case_eqb :=
  repeat match goal with
         | |- context [?a =? ?b] => destruct (Z.eqb_spec a b)
         end.

Lemma year_decomposition (n400 n100 n4 n1 : Z) :
  0 <= n100 <= 3 -> 0 <= n4 <= 24 -> 0 <= n1 <= 3 ->
  let y := n400 * 400 + 1 + n100 * 100 + n4 * 4 + n1 in
  days_before_year y = 146097 * n400 + 36524 * n100 + 1461 * n4 + 365 * n1
  /\ is_leap y = ((n1 =? 3) && (negb (n4 =? 24) || (n100 =? 3))).
Proof.
  intros H100 H4 H1 y. unfold days_before_year, is_leap. subst y. cbv zeta.
  split.
  - Z.div_mod_to_equations; lia.
  - case_eqb; simpl; try reflexivity; exfalso; Z.div_mod_to_equations; lia.
Qed.

Lemma month_day_table :
  forallb (month_day_ok false) (seq 0 365)
  && forallb (month_day_ok true) (seq 0 366) = true.
Proof. vm_compute. reflexivity. Qed.

Lemma month_day_spec (n : Z) (leapyear : bool) :
  0 <= n < 365 + b2z leapyear ->
  month_day_ok leapyear (Z.to_nat n) = true.
Proof.
  intros Hn. pose proof month_day_table as H.
  apply andb_prop in H as [H0 H1]. rewrite forallb_forall in H0, H1.
  destruct leapyear; simpl in Hn; [apply H1|apply H0]; apply in_seq; lia.
Qed.

(** [date.fromordinal] inverts [toordinal] and yields a calendar day. *)
Lemma ord2ymd_correct (n : Z) :
  1 <= n ->
  let d := ord2ymd n in
  date_toordinal d = n
  /\ 1 <= d_year d
  /\ (n <= MAXORDINAL -> d_year d <= 9999)
  /\ 1 <= d_month d <= 12
  /\ 1 <= d_day d <= days_in_month (d_year d) (d_month d).
Proof.
  intros Hn. unfold ord2ymd, DI400Y, DI100Y, DI4Y, MAXORDINAL.
  set (m0 := n - 1).
  pose proof (Z.div_mod m0 146097 ltac:(lia)) as E400.
  pose proof (Z.mod_pos_bound m0 146097 ltac:(lia)) as B400.
  set (n400 := m0 / 146097) in *. set (r400 := m0 mod 146097) in *.
  pose proof (Z.div_mod r400 36524 ltac:(lia)) as E100.
  pose proof (Z.mod_pos_bound r400 36524 ltac:(lia)) as B100.
  set (n100 := r400 / 36524) in *. set (r100 := r400 mod 36524) in *.
  pose proof (Z.div_mod r100 1461 ltac:(lia)) as E4.
  pose proof (Z.mod_pos_bound r100 1461 ltac:(lia)) as B4.
  set (n4 := r100 / 1461) in *. set (r4 := r100 mod 1461) in *.
  pose proof (Z.div_mod r4 365 ltac:(lia)) as E1.
  pose proof (Z.mod_pos_bound r4 365 ltac:(lia)) as B1.
  set (n1 := r4 / 365) in *. set (r := r4 mod 365) in *.
  assert (Hn400 : 0 <= n400) by lia.
  assert (Hn100 : 0 <= n100 <= 4) by lia.
  assert (Hn4 : 0 <= n4 <= 24) by lia.
  assert (Hn1 : 0 <= n1 <= 4) by lia.
  cbv zeta.
  destruct ((n1 =? 4) || (n100 =? 4)) eqn:Hspecial.
  - (* the last day of a leap year *)
    apply orb_prop in Hspecial.
    rewrite !Z.eqb_eq in Hspecial.
    set (y := n400 * 400 + 1 + n100 * 100 + n4 * 4 + n1 - 1).
    assert (Hleap : is_leap y = true).
    { unfold is_leap, y.
      case_eqb; simpl; try reflexivity; exfalso;
        Z.div_mod_to_equations; lia. }
    unfold date_toordinal, ymd2ord, days_before_month, days_in_month.
    cbn [d_year d_month d_day]. rewrite Hleap. simpl nth. simpl b2z.
    change ((12 =? 2) && true) with false. cbv iota.
    unfold days_before_year, y.
    repeat split; try lia; Z.div_mod_to_equations; lia.
  - apply orb_false_elim in Hspecial as [H1 H100].
    apply Z.eqb_neq in H1, H100.
    destruct (year_decomposition n400 n100 n4 n1
                ltac:(lia) ltac:(lia) ltac:(lia)) as [Hdby Hleap].
    cbv zeta in Hdby, Hleap.
    set (y := n400 * 400 + 1 + n100 * 100 + n4 * 4 + n1) in *.
    rewrite <- Hleap.
    pose proof (month_day_spec r (is_leap y)) as Hmd.
    unfold month_day_ok, month_day in Hmd. rewrite Z2Nat.id in Hmd by lia.
    cbv zeta in Hmd.
    specialize (Hmd ltac:(destruct (is_leap y); simpl; lia)).
    match type of Hmd with
    | context [if ?c then _ else _] => destruct c
    end;
      repeat (apply andb_prop in Hmd as [Hmd ?]);
      rewrite ?Z.leb_le, ?Z.eqb_eq in *;
      unfold date_toordinal, ymd2ord, days_before_month, days_in_month;
      cbn [d_year d_month d_day]; rewrite Hdby;
      repeat split; try lia.
Qed.

Lemma month_cases (m : Z) :
  1 <= m <= 12 ->
  m = 1 \/ m = 2 \/ m = 3 \/ m = 4 \/ m = 5 \/ m = 6 \/ m = 7 \/ m = 8
  \/ m = 9 \/ m = 10 \/ m = 11 \/ m = 12.
Proof. lia. Qed.

Lemma date_toordinal_bounds (d : date) :
  valid_date d -> 1 <= date_toordinal d <= MAXORDINAL.
Proof.
  destruct d as [y m dd]. unfold valid_date, date_toordinal, ymd2ord.
  cbn [d_year d_month d_day]. intros [Hy [Hm Hd]].
  assert (Hdby : 0 <= days_before_year y
                 <= 3651694 - 365 * b2z (is_leap y)).
  { destruct (is_leap y) eqn:Hleap; simpl b2z.
    - assert (y <> 9999) by (intros ->; discriminate).
      unfold days_before_year. Z.div_mod_to_equations; lia.
    - unfold days_before_year. Z.div_mod_to_equations; lia. }
  unfold days_before_month, days_in_month, MAXORDINAL in *.
  destruct (is_leap y);
    destruct (month_cases m Hm) as
      [->|[->|[->|[->|[->|[->|[->|[->|[->|[->|[->| ->]]]]]]]]]]];
    simpl in Hd, Hdby |- *; lia.
Qed.

Ltac month_tables :=
  cbv [nth Z.to_nat Pos.to_nat Pos.iter_op Nat.add DAYS_BEFORE_MONTH
       DAYS_IN_MONTH b2z Z.ltb Z.eqb Z.compare Pos.compare Pos.compare_cont
       Pos.eqb andb] in *.

Lemma days_before_year_succ (y : Z) :
  days_before_year (y + 1) = days_before_year y + 365 + b2z (is_leap y).
Proof.
  unfold days_before_year, is_leap. cbv zeta.
  case_eqb; simpl; Z.div_mod_to_equations; lia.
Qed.

Lemma days_before_year_mono (y1 y2 : Z) :
  y1 <= y2 -> days_before_year y1 <= days_before_year y2.
Proof.
  intros H. unfold days_before_year. cbv zeta. Z.div_mod_to_equations; lia.
Qed.

Lemma day_of_year_bounds (d : date) :
  valid_date d ->
  1 <= days_before_month (d_year d) (d_month d) + d_day d
    <= 365 + b2z (is_leap (d_year d)).
Proof.
  destruct d as [y m dd]. unfold valid_date. cbn [d_year d_month d_day].
  intros [Hy [Hm Hd]]. unfold days_before_month, days_in_month in *.
  destruct (is_leap y);
    destruct (month_cases m Hm) as
      [->|[->|[->|[->|[->|[->|[->|[->|[->|[->|[->| ->]]]]]]]]]]];
    month_tables; lia.
Qed.

Lemma month_order (y m1 m2 d1 d2 : Z) :
  1 <= m1 <= 12 -> 1 <= m2 <= 12 -> m2 < m1 ->
  1 <= d1 -> d2 <= days_in_month y m2 ->
  days_before_month y m2 + d2 < days_before_month y m1 + d1.
Proof.
  intros H1 H2 Hlt Hd1 Hd2. unfold days_before_month, days_in_month in *.
  destruct (is_leap y);
    destruct (month_cases m1 H1) as
      [->|[->|[->|[->|[->|[->|[->|[->|[->|[->|[->| ->]]]]]]]]]]];
    destruct (month_cases m2 H2) as
      [->|[->|[->|[->|[->|[->|[->|[->|[->|[->|[->| ->]]]]]]]]]]];
    try lia; month_tables; lia.
Qed.

(** The order of ordinals is the order of the datetimes at midnight. *)
Lemma date_order (a b : date) :
  valid_date a -> valid_date b ->
  date_toordinal a < date_toordinal b ->
  Datetime.ltb (click_DateTime a) (click_DateTime b) = true.
Proof.
  intros Ha Hb Hlt.
  pose proof (day_of_year_bounds a Ha) as Hda.
  pose proof (day_of_year_bounds b Hb) as Hdb.
  destruct a as [y1 m1 d1], b as [y2 m2 d2].
  unfold valid_date, date_toordinal, ymd2ord in *.
  cbn [d_year d_month d_day] in *.
  unfold Datetime.ltb, cmp, click_DateTime, fields. cbn.
  destruct (Z.compare_spec y1 y2) as [->|Hy|Hy]; [|reflexivity|].
  - destruct (Z.compare_spec m1 m2) as [->|Hm|Hm]; [|reflexivity|].
    + destruct (Z.compare_spec d1 d2); [lia|reflexivity|lia].
    + pose proof (month_order y2 m1 m2 d1 d2). lia.
  - pose proof (days_before_year_mono (y2 + 1) y1 ltac:(lia)).
    pose proof (days_before_year_succ y2). lia.
Qed.

(** ** The sheet range *)

(** With [nb_cols] columns, up to 25, the end cell of the range is in
    column [nb_cols + 1]; with 26 columns or more the index is out of range. *)
Lemma update_range_columns (row : list value) (rest : table) :
  ((List.length row <= 25)%nat ->
   exists c,
     update_range (row :: rest)
     = Py.Ok ("A1:" ++ String c (decimal_nat (S (List.length rest))))%string
     /\ column_number c = S (List.length row))
  /\ ((26 <= List.length row)%nat ->
      update_range (row :: rest) = Py.Raise Py.IndexError).
Proof.
  unfold update_range. cbn [List.length].
  generalize (List.length row) as n. intros n. split.
  - intros Hn.
    do 26 (destruct n as [|n]; [eexists; split; reflexivity|]).
    lia.
  - intros Hn.
    do 26 (destruct n as [|n]; [lia|]).
    reflexivity.
Qed.

(** C7. The range of the sheet update, run on tables of one row: one
    column gives [A1:B1], the 17 columns of the report give [A1:R1], 25
    columns give [A1:Z1], each one column wider than the table, and 26
    columns raise [IndexError]. *)
Theorem update_range_off_by_one :
  update_range [[VStr "x"]] = Py.Ok "A1:B1"
  /\ update_range [HEADER] = Py.Ok "A1:R1"
  /\ update_range [repeat (VStr "x") 25] = Py.Ok "A1:Z1"
  /\ update_range [repeat (VStr "x") 26] = Py.Raise Py.IndexError.
Proof. repeat split. Qed.

(** ** Command-line defaults *)

(** C8, as stated, fails: on 2024-03-01 the default of [--start-date] is
    2024-01-31 and not that day, and the default of [--end-date] is that day
    and not the day thirty days before. *)
Lemma cli_defaults_not_swapped :
  let today := mkdate 2024 3 1 in
  start_date_default today = Py.Ok (click_DateTime (mkdate 2024 1 31))
  /\ end_date_default today = Py.Ok (click_DateTime today)
  /\ ~ (start_date_default today = Py.Ok (click_DateTime today)
        /\ exists d, date_toordinal d = date_toordinal today - 30
                     /\ end_date_default today = Py.Ok (click_DateTime d)).
Proof.
  cbv zeta. split; [reflexivity|]. split; [reflexivity|].
  intros [H _]. vm_compute in H. discriminate H.
Qed.

(** C8, amended. The default of [--start-date] is midnight of the
    calendar day thirty days before today and the default of [--end-date] is
    midnight of today; the start of this window is before its end. *)
Theorem cli_defaults (today : date) :
  valid_date today ->
  30 < date_toordinal today ->
  exists d,
    start_date_default today = Py.Ok (click_DateTime d)
    /\ valid_date d
    /\ date_toordinal d = date_toordinal today - 30
    /\ end_date_default today = Py.Ok (click_DateTime today)
    /\ Datetime.ltb (click_DateTime d) (click_DateTime today) = true.
Proof.
  intros Hvalid Hlate.
  pose proof (date_toordinal_bounds today Hvalid) as [_ Hmax].
  exists (ord2ymd (date_toordinal today - 30)).
  destruct (ord2ymd_correct (date_toordinal today - 30) ltac:(lia))
    as [Hord [Hy1 [Hy2 [Hm Hd]]]].
  assert (Hd_valid : valid_date (ord2ymd (date_toordinal today - 30))).
  { unfold valid_date. repeat split; lia. }
  split; [|split; [|split; [|split]]].
  - unfold start_date_default, date_sub_days.
    rewrite Z.add_opp_r.
    assert (Hlo : (0 <? date_toordinal today - 30) = true)
      by (apply Z.ltb_lt; lia).
    assert (Hhi : (date_toordinal today - 30 <=? MAXORDINAL) = true)
      by (apply Z.leb_le; lia).
    now rewrite Hlo, Hhi.
  - exact Hd_valid.
  - exact Hord.
  - reflexivity.
  - apply date_order; [exact Hd_valid | exact Hvalid | lia].
Qed.

(** * Further properties *)

(** ** [parse_datetime] and the trailing [Z] *)

Lemma rstrip_snoc (c : ascii) (s : string) :
  rstrip c (s ++ String c EmptyString)%string = rstrip c s.
Proof.
  induction s as [|a s IH]; simpl.
  - now rewrite Ascii.eqb_refl.
  - now rewrite IH.
Qed.

Lemma append_replicate_S (s : string) (k : nat) (c : ascii) :
  (s ++ replicate_char (S k) c)%string
  = ((s ++ String c EmptyString) ++ replicate_char k c)%string.
Proof. induction s as [|a s IH]; simpl; [reflexivity|]. now rewrite <- IH. Qed.

Lemma rstrip_replicate (c : ascii) (s : string) (k : nat) :
  rstrip c (s ++ replicate_char k c)%string = rstrip c s.
Proof.
  revert s; induction k as [|k IH]; intros s.
  - cbn [replicate_char]. f_equal.
    induction s as [|a s IHs]; simpl; [reflexivity|]. now rewrite IHs.
  - now rewrite append_replicate_S, IH, rstrip_snoc.
Qed.

Lemma rstrip_decompose (c : ascii) (s : string) :
  exists k, s = (rstrip c s ++ replicate_char k c)%string.
Proof.
  induction s as [|a s [k IH]]; simpl.
  - now exists 0%nat.
  - destruct (rstrip c s) as [|b r] eqn:Hr; simpl.
    + destruct (Ascii.eqb_spec a c) as [->|Hne].
      * exists (S k). simpl in IH. now rewrite IH at 1.
      * exists k. simpl in IH. now rewrite IH at 1.
    + exists k. now rewrite IH at 1.
Qed.

Lemma rstrip_last_char (c : ascii) (s : string) :
  last_char (rstrip c s) <> Some c.
Proof.
  induction s as [|a s IH]; simpl; [discriminate|].
  destruct (rstrip c s) as [|b r] eqn:Hr; simpl.
  - destruct (Ascii.eqb_spec a c) as [->|Hne]; simpl; congruence.
  - exact IH.
Qed.

(** X1. [parse_datetime] drops the whole run of [Z] characters that ends
    its argument and nothing else: the string it hands to
    [datetime.fromisoformat] is the argument without that run, it never ends
    in [Z], and adding any number of [Z] at the end of a timestamp does not
    change the result. *)
Theorem parse_datetime_trailing_Z
    (fromisoformat : string -> Py.result datetime) (s : string) :
  parse_datetime fromisoformat s = fromisoformat (rstrip "Z" s)
  /\ (exists k, s = (rstrip "Z" s ++ replicate_char k "Z")%string)
  /\ last_char (rstrip "Z" s) <> Some "Z"%char
  /\ (forall k,
        parse_datetime fromisoformat (s ++ replicate_char k "Z")%string
        = parse_datetime fromisoformat s).
Proof.
  split; [reflexivity|]. split; [apply rstrip_decompose|].
  split; [apply rstrip_last_char|].
  intros k. unfold parse_datetime. now rewrite rstrip_replicate.
Qed.

(** ** The formatted datetime *)










(** ** More on the transition detector *)

Lemma first_occurrence (label : string) (events : list event) :
  occurs label events ->
  exists pre t post,
    events = pre ++ (label, t) :: post /\ ~ occurs label pre.
Proof.
  unfold occurs. induction events as [|[l t] events IH]; simpl; [tauto|].
  intros Hin. destruct (String.eqb_spec l label) as [->|Hne].
  - exists [], t, events. split; [reflexivity | simpl; tauto].
  - destruct IH as [pre [t' [post [-> Hpre]]]]; [tauto|].
    exists ((l, t) :: pre), t', post. split; [reflexivity|].
    simpl. tauto.
Qed.

Lemma latest_occurrence_In (label : string) (events : list event) s :
  latest_occurrence label events = Some s -> In (label, s) events.
Proof.
  induction events as [|[l t] events IH]; [discriminate|].
  rewrite latest_occurrence_cons. simpl fst. simpl snd.
  destruct (String.eqb_spec l label) as [->|Hne].
  - unfold latest_or. destruct (latest_occurrence label events) as [t'|].
    + intros [= <-]. right. now apply IH.
    + intros [= <-]. now left.
  - intros H. right. now apply IH.
Qed.

Lemma scan_events_end (events : list event) (sl sl' fl : string) start start' :
  snd (scan_events events sl fl start) = snd (scan_events events sl' fl start').
Proof.
  revert start start'; induction events as [|[l t] events IH];
    intros start start'; simpl; [reflexivity|].
  destruct (String.eqb l fl); [reflexivity|].
  destruct (String.eqb l sl), (String.eqb l sl'); apply IH.
Qed.

Lemma scan_events_same_label (events : list event) (l : string) start :
  fst (scan_events events l l start) = start.
Proof.
  revert start; induction events as [|[l' t] events IH]; intros start; simpl;
    [reflexivity|].
  destruct (String.eqb l' l); [reflexivity | apply IH].
Qed.

(** X3. Provenance of a transition result.  An [end] is reported exactly
    when [final_label] occurs, and it is the timestamp of an event of the
    list that carries [final_label]; a reported [start] is the timestamp of
    an event that carries [starting_label] and, when there is an [end],
    stands before the terminating event in the list.  The [end] does not
    depend on [starting_label], and a transition from a label to itself
    never has a start, because the test for [final_label] comes first. *)
Theorem find_events_dates_changes_provenance
    (events : list event) (sl fl : string) :
  (occurs fl events <->
   exists e, snd (find_events_dates_changes events sl fl) = Some e)
  /\ (forall s e,
        find_events_dates_changes events sl fl = (s, Some e) ->
        exists pre post,
          events = pre ++ (fl, e) :: post
          /\ ~ occurs fl pre
          /\ (forall s0, s = Some s0 -> In (sl, s0) pre))
  /\ (forall s0,
        find_events_dates_changes events sl fl = (Some s0, None) ->
        In (sl, s0) events /\ ~ occurs fl events)
  /\ (forall sl',
        snd (find_events_dates_changes events sl' fl)
        = snd (find_events_dates_changes events sl fl))
  /\ fst (find_events_dates_changes events fl fl) = None.
Proof.
  unfold find_events_dates_changes.
  assert (Hcases :
    (exists pre t post,
        events = pre ++ (fl, t) :: post /\ ~ occurs fl pre
        /\ scan_events events sl fl None = (latest_occurrence sl pre, Some t))
    \/ (~ occurs fl events
        /\ scan_events events sl fl None = (latest_occurrence sl events, None))).
  { destruct (in_dec string_dec fl (map fst events)) as [Hin|Hno].
    - left. destruct (first_occurrence fl events Hin)
        as [pre [t [post [-> Hpre]]]].
      exists pre, t, post. split; [reflexivity|]. split; [assumption|].
      rewrite scan_events_prefix by assumption.
      simpl. rewrite String.eqb_refl.
      unfold latest_or. now destruct (latest_occurrence sl pre).
    - right. split; [assumption|].
      rewrite <- (app_nil_r events) at 1.
      rewrite scan_events_prefix by assumption.
      unfold latest_or; simpl. now destruct (latest_occurrence sl events). }
  split; [|split; [|split; [|split]]].
  - destruct Hcases as [[pre [t [post [-> [Hpre ->]]]]]|[Hno ->]]; simpl.
    + split; [now exists t|]. intros _. unfold occurs.
      rewrite map_app. apply in_or_app. right. now left.
    + split; [tauto|]. intros [e He]. discriminate.
  - intros s e Hres.
    destruct Hcases as [[pre [t [post [-> [Hpre Hscan]]]]]|[Hno Hscan]];
      rewrite Hscan in Hres; [|discriminate].
    injection Hres as <- <-.
    exists pre, post. split; [reflexivity|]. split; [assumption|].
    intros s0. apply latest_occurrence_In.
  - intros s0 Hres.
    destruct Hcases as [[pre [t [post [-> [Hpre Hscan]]]]]|[Hno Hscan]];
      rewrite Hscan in Hres; [discriminate|].
    injection Hres as Hs. split; [|assumption].
    now apply latest_occurrence_In.
  - intros sl'. apply scan_events_end.
  - apply scan_events_same_label.
Qed.

(** ** The window, seen from the pipeline *)

Lemma tuple_cmp_le_lt_trans (a b c : list Z) :
  tuple_cmp a b <> Gt -> tuple_cmp b c = Lt -> tuple_cmp a c = Lt.
Proof.
  revert b c; induction a as [|x a IH]; intros [|y b] [|z c]; simpl;
    try congruence.
  destruct (Z.compare_spec x y) as [E1|L1|G1],
           (Z.compare_spec y z) as [E2|L2|G2];
    try congruence;
    destruct (Z.compare_spec x z) as [E3|L3|G3];
    try lia; try congruence.
  apply IH.
Qed.

Lemma leb_ltb_trans (a b c : datetime) :
  Datetime.leb a b = true -> Datetime.ltb b c = true -> Datetime.ltb a c = true.
Proof.
  unfold Datetime.leb, Datetime.ltb, cmp. intros Hab Hbc.
  rewrite (tuple_cmp_le_lt_trans (fields a) (fields b) (fields c));
    [reflexivity| |].
  - destruct (tuple_cmp (fields a) (fields b)); congruence.
  - destruct (tuple_cmp (fields b) (fields c)); congruence.
Qed.

Lemma window_filter_in_window (sd ed : datetime) r (s e : datetime) :
  window_filter sd ed r = (Some s, Some e) ->
  Datetime.leb sd e = true /\ Datetime.ltb e ed = true.
Proof.
  destruct r as [[s'|] [e'|]]; simpl; try congruence.
  destruct (Datetime.leb sd e') eqn:H1, (Datetime.ltb e' ed) eqn:H2; simpl;
    try congruence.
  intros [= <- <-]. now split.
Qed.

Lemma find_issue_dates_changes_pairs
    (fromisoformat : string -> Py.result datetime) (i : issue)
    (sd ed : datetime) dcs :
  find_issue_dates_changes fromisoformat i sd ed = Py.Ok dcs ->
  forall r, In r dcs -> exists r0, r = window_filter sd ed r0.
Proof.
  unfold find_issue_dates_changes.
  destruct (normalized_events fromisoformat i) as [evs|]; cbn [Py.bind];
    [|discriminate].
  intros Heq r Hin.
  match type of Heq with
  | Py.Ok ?l = _ => assert (Hd : dcs = l) by congruence
  end.
  rewrite Hd in Hin. apply in_map_iff in Hin as [tr [<- _]].
  now eexists.
Qed.

(** X4. Every complete pair that [find_issue_dates_changes] returns has
    its end inside the window, [start_date <= end < end_date]; so an empty
    window, one with [start_date >= end_date], leaves no complete pair, every
    issue that can be read gives a blank row, and the rows of the project are
    the empty list. *)
Theorem find_issue_dates_changes_in_window
    (fromisoformat : string -> Py.result datetime) (sd ed : datetime) :
  (forall i dcs s e,
      find_issue_dates_changes fromisoformat i sd ed = Py.Ok dcs ->
      In (Some s, Some e) dcs ->
      Datetime.leb sd e = true /\ Datetime.ltb e ed = true)
  /\ (Datetime.ltb sd ed = false ->
      (forall i dcs,
          find_issue_dates_changes fromisoformat i sd ed = Py.Ok dcs ->
          existsb both_present dcs = false)
      /\ (forall p out,
            Forall (fun i => exists dcs,
                        find_issue_dates_changes fromisoformat i sd ed
                        = Py.Ok dcs) (issues p) ->
            fst (find_project_date_changes fromisoformat p sd ed out)
            = Py.Ok [])).
Proof.
  assert (Hin_window : forall i dcs s e,
    find_issue_dates_changes fromisoformat i sd ed = Py.Ok dcs ->
    In (Some s, Some e) dcs ->
    Datetime.leb sd e = true /\ Datetime.ltb e ed = true).
  { intros i dcs s e Hdcs Hin.
    destruct (find_issue_dates_changes_pairs _ _ _ _ _ Hdcs _ Hin)
      as [r0 Hr0].
    now apply (window_filter_in_window sd ed r0 s e). }
  split; [exact Hin_window|].
  intros Hempty.
  assert (Hnone : forall i dcs,
    find_issue_dates_changes fromisoformat i sd ed = Py.Ok dcs ->
    existsb both_present dcs = false).
  { intros i dcs Hdcs.
    destruct (existsb both_present dcs) eqn:Hex; [|reflexivity].
    apply existsb_exists in Hex as [[[s|] [e|]] [Hin Hboth]];
      try discriminate Hboth.
    destruct (Hin_window i dcs s e Hdcs Hin) as [H1 H2].
    rewrite (leb_ltb_trans sd e ed H1 H2) in Hempty. discriminate. }
  split; [exact Hnone|].
  intros p out Hok. unfold find_project_date_changes.
  generalize 0%nat as idx. revert out.
  induction Hok as [|i todo [dcs Hdcs] _ IH]; intros out idx; simpl;
    [reflexivity|].
  rewrite Hdcs, format_date_changes_concat, any_cells, (Hnone i dcs Hdcs).
  apply IH.
Qed.

(** ** The order of the raw events *)

Lemma tuple_cmp_eq (a b : list Z) : tuple_cmp a b = Eq -> a = b.
Proof.
  revert b; induction a as [|x a IH]; intros [|y b]; simpl; try congruence.
  destruct (Z.compare_spec x y) as [->|L|G]; try congruence.
  intros H. now rewrite (IH b H).
Qed.

Lemma cmp_eq (a b : datetime) : cmp a b = Eq -> a = b.
Proof.
  unfold cmp. intros H. apply tuple_cmp_eq in H.
  destruct a, b. unfold fields in H. cbn in H. congruence.
Qed.

Lemma leb_antisym (a b : datetime) :
  Datetime.leb a b = true -> Datetime.leb b a = true -> a = b.
Proof.
  unfold Datetime.leb. intros Hab Hba. apply cmp_eq.
  unfold cmp in *.
  rewrite (DatetimeFacts.tuple_cmp_antisym (fields a) (fields b)) in Hba.
  destruct (tuple_cmp (fields a) (fields b)); simpl in *; congruence.
Qed.

Lemma relevant_events_complete
    (fromisoformat : string -> Py.result datetime)
    (raw : list raw_event) (evs : list event) :
  Forall2 (normal_form fromisoformat) (filter recognized raw) evs ->
  relevant_events fromisoformat raw = Py.Ok evs.
Proof.
  revert evs; induction raw as [|ev raw IH]; intros evs; simpl.
  - intros H. now inversion H.
  - unfold recognized at 1.
    destruct (label ev) as [label_name|] eqn:Hlabel; [|now apply IH].
    destruct (in_LABELS label_name); [|now apply IH].
    intros H. inversion H as [|? e ? evs' [Hl Ht] Hrest]; subst.
    rewrite Ht, (IH evs' Hrest). simpl.
    destruct e as [l t]. simpl in *.
    rewrite Hlabel in Hl. now injection Hl as ->.
Qed.

Lemma Permutation_filter_keep {A} (f : A -> bool) (l l' : list A) :
  Permutation l l' -> Permutation (filter f l) (filter f l').
Proof.
  induction 1 as [|x l l' _ IH|x y l|l l' l'' _ IH1 _ IH2]; simpl.
  - constructor.
  - destruct (f x); [now constructor | assumption].
  - destruct (f x), (f y); try apply Permutation_refl. apply perm_swap.
  - now transitivity (filter f l').
Qed.

(** Two sorted arrangements of the same events coincide when no two events
    share a timestamp. *)
Lemma sorted_unique (l1 l2 : list event) :
  StronglySorted time_le l1 -> StronglySorted time_le l2 ->
  Permutation l1 l2 -> NoDup (map snd l1) -> l1 = l2.
Proof.
  intros H1; revert l2; induction H1 as [|x l1 Hs1 IH Hx];
    intros l2 H2 Hperm Hnodup.
  - apply Permutation_nil in Hperm. now subst.
  - destruct l2 as [|y l2].
    { apply Permutation_sym, Permutation_nil in Hperm. discriminate. }
    inversion H2 as [|? ? Hs2 Hy]; subst.
    inversion Hnodup as [|? ? Hnotin Hnodup']; subst.
    assert (Hxy : x = y).
    { assert (Hx2 : In x (y :: l2)).
      { apply (Permutation_in _ Hperm). now left. }
      destruct Hx2 as [->|Hx2]; [reflexivity|].
      assert (Hy1 : In y (x :: l1)).
      { apply (Permutation_in _ (Permutation_sym Hperm)). now left. }
      destruct Hy1 as [->|Hy1]; [reflexivity|].
      rewrite Forall_forall in Hx, Hy.
      assert (snd x = snd y)
        by (apply leb_antisym; [apply Hx | apply Hy]; assumption).
      exfalso. apply Hnotin. rewrite H. now apply in_map. }
    subst y. f_equal.
    apply IH; [assumption | now apply Permutation_cons_inv in Hperm | assumption].
Qed.

Lemma sorted_by_time_strongly (l : list event) :
  StronglySorted time_le (sorted_by_time l).
Proof.
  apply Sorted_StronglySorted;
    [exact DatetimeFacts.time_le_trans | apply sorted_by_time_sorted].
Qed.

(** X5. The order in which the API lists the label events does not
    matter when the recognised events have pairwise distinct timestamps: an
    issue whose events are a rearrangement of another's has the same
    normalised events and the same transition results. *)
Theorem find_issue_dates_changes_order_independent
    (fromisoformat : string -> Py.result datetime) (i i' : issue)
    (evs : list event) :
  Permutation (resourcelabelevents i) (resourcelabelevents i') ->
  normalized_events fromisoformat i = Py.Ok evs ->
  NoDup (map snd evs) ->
  normalized_events fromisoformat i' = Py.Ok evs
  /\ (forall sd ed,
        find_issue_dates_changes fromisoformat i' sd ed
        = find_issue_dates_changes fromisoformat i sd ed).
Proof.
  intros Hperm Hnorm Hnodup.
  assert (Hsame : normalized_events fromisoformat i' = Py.Ok evs).
  { unfold normalized_events in *.
    destruct (relevant_events fromisoformat (resourcelabelevents i))
      as [kept|] eqn:Hkept; cbn [Py.bind] in Hnorm; [|discriminate].
    injection Hnorm as <-.
    apply relevant_events_normal_form in Hkept.
    destruct (Permutation_Forall2
                (Permutation_filter_keep recognized _ _ Hperm) Hkept)
      as [kept' [Hperm' Hkept']].
    rewrite (relevant_events_complete _ _ _ Hkept'). cbn [Py.bind].
    f_equal. symmetry.
    apply sorted_unique; try apply sorted_by_time_strongly.
    - rewrite <- (sorted_by_time_perm kept), <- (sorted_by_time_perm kept').
      exact Hperm'.
    - exact Hnodup. }
  split; [exact Hsame|].
  intros sd ed. unfold find_issue_dates_changes. now rewrite Hsame, Hnorm.
Qed.

Lemma insert_by_time_ties (t : datetime) (x : event) (l : list event) :
  filter (at_time t) (insert_by_time x l) = filter (at_time t) (x :: l).
Proof.
  induction l as [|y l IH]; [reflexivity|].
  simpl insert_by_time.
  destruct (Datetime.ltb (snd y) (snd x)) eqn:Hlt; [|reflexivity].
  simpl filter in *. rewrite IH.
  destruct (at_time t x) eqn:Hx, (at_time t y) eqn:Hy; try reflexivity.
  exfalso. unfold at_time in Hx, Hy.
  destruct (cmp (snd x) t) eqn:Ex; try discriminate.
  destruct (cmp (snd y) t) eqn:Ey; try discriminate.
  apply cmp_eq in Ex, Ey. rewrite Ex, Ey in Hlt.
  now rewrite DatetimeFacts.ltb_irrefl in Hlt.
Qed.

Lemma sorted_by_time_ties (t : datetime) (l : list event) :
  filter (at_time t) (sorted_by_time l) = filter (at_time t) l.
Proof.
  induction l as [|x l IH]; [reflexivity|].
  simpl sorted_by_time. rewrite insert_by_time_ties.
  simpl. now rewrite IH.
Qed.

(** X6. Events that share a timestamp keep the order in which the API
    listed them: for every instant, the normalised events at that instant
    are the retained events at that instant, in the same order. *)
Theorem normalized_events_ties
    (fromisoformat : string -> Py.result datetime) (i : issue)
    (kept evs : list event) (t : datetime) :
  relevant_events fromisoformat (resourcelabelevents i) = Py.Ok kept ->
  normalized_events fromisoformat i = Py.Ok evs ->
  filter (at_time t) evs = filter (at_time t) kept.
Proof.
  unfold normalized_events. intros ->. cbn [Py.bind]. intros [= <-].
  apply sorted_by_time_ties.
Qed.

(** ** Errors *)






(** ** The progress lines *)

Lemma project_loop_stdout
    (fromisoformat : string -> Py.result datetime)
    (todo : list issue) (sd ed : datetime) :
  Forall (fun i => exists dcs,
              find_issue_dates_changes fromisoformat i sd ed = Py.Ok dcs) todo ->
  forall idx values out,
    snd (project_loop fromisoformat idx todo sd ed values out)
    = out ++ map progress_message (progress_positions idx (List.length todo)).
Proof.
  induction 1 as [|i todo [dcs Hdcs] _ IH]; intros idx values out; simpl.
  - now rewrite app_nil_r.
  - rewrite Hdcs.
    assert (Hstep : forall values',
      snd (project_loop fromisoformat (S idx) todo sd ed values'
             (echo_progress idx out))
      = out ++ map progress_message
                 (progress_positions idx (S (List.length todo)))).
    { intros values'. rewrite IH.
      unfold progress_positions, echo_progress.
      change (seq idx (S (List.length todo)))
        with (idx :: seq (S idx) (List.length todo)).
      cbn [filter].
      destruct (negb (idx =? 0)%nat && (idx mod 100 =? 0)%nat); cbn [map].
      - now rewrite <- app_assoc.
      - reflexivity. }
    destruct (negb (any (format_date_changes dcs))); apply Hstep.
Qed.

Lemma progress_positions_closed (n : nat) :
  progress_positions 0 n
  = map (fun k => (100 * k)%nat) (seq 1 ((n - 1) / 100)).
Proof.
  unfold progress_positions.
  induction n as [|n IH]; [reflexivity|].
  rewrite seq_S, filter_app, IH. simpl (0 + n)%nat. cbn [filter].
  destruct (Nat.eqb_spec n 0) as [->|Hn]; [reflexivity|].
  destruct (Nat.eqb_spec (n mod 100) 0) as [Hmod|Hmod]; cbn [negb andb].
  - assert (Hq : ((S n - 1) / 100 = S ((n - 1) / 100))%nat).
    { zify. Z.div_mod_to_equations. lia. }
    rewrite Hq, seq_S, map_app. cbn [map]. do 2 f_equal.
    zify. Z.div_mod_to_equations. lia.
  - rewrite app_nil_r. do 2 f_equal.
    zify. Z.div_mod_to_equations. lia.
Qed.

(** X8. Progress output of a project whose issues can all be read: the
    stream is only appended to, and the lines added are [Treated 100 issues],
    [Treated 200 issues], and so on, one for each positive multiple of 100
    below the number of issues; nothing is echoed for 100 issues or fewer. *)
Theorem find_project_date_changes_stdout
    (fromisoformat : string -> Py.result datetime) (p : project)
    (sd ed : datetime) (out : stdout) :
  Forall (fun i => exists dcs,
              find_issue_dates_changes fromisoformat i sd ed = Py.Ok dcs)
         (issues p) ->
  snd (find_project_date_changes fromisoformat p sd ed out)
  = out ++ map (fun k => progress_message (100 * k))
               (seq 1 ((List.length (issues p) - 1) / 100))
  /\ ((List.length (issues p) <= 100)%nat ->
      snd (find_project_date_changes fromisoformat p sd ed out) = out).
Proof.
  intros Hok. unfold find_project_date_changes.
  rewrite (project_loop_stdout _ _ _ _ Hok), progress_positions_closed, map_map.
  split; [reflexivity|].
  intros Hsmall.
  replace ((List.length (issues p) - 1) / 100)%nat with 0%nat.
  - apply app_nil_r.
  - zify. Z.div_mod_to_equations. lia.
Qed.

(** ** The assembled report *)

Lemma find_project_date_changes_any_stdout
    (fromisoformat : string -> Py.result datetime) (p : project)
    (sd ed : datetime) (out out' : stdout) :
  fst (find_project_date_changes fromisoformat p sd ed out)
  = fst (find_project_date_changes fromisoformat p sd ed out').
Proof.
  unfold find_project_date_changes.
  apply project_loop_same_input, same_input_refl.
Qed.

Lemma report_loop_rows
    (fromisoformat : string -> Py.result datetime)
    (gl_projects_get : string -> Py.result project)
    (projects : list (string * string)) (ps : list project)
    (sd ed : datetime) :
  Forall2 (fun cfg p => gl_projects_get (snd cfg) = Py.Ok p) projects ps ->
  forall rowss,
    Forall2 (fun p rows =>
               fst (find_project_date_changes fromisoformat p sd ed [])
               = Py.Ok rows) ps rowss ->
    forall values out,
      fst (report_loop fromisoformat gl_projects_get projects sd ed values out)
      = Py.Ok (values
               ++ List.concat (map (fun pr => named_rows (fst pr) (snd pr))
                                   (combine ps rowss))).
Proof.
  induction 1 as [|[project_name project_id] p projects ps Hget _ IH];
    intros rowss Hrows values out.
  - inversion Hrows; subst. simpl. now rewrite app_nil_r.
  - inversion Hrows as [|? rows ? rowss' Hp Hrest]; subst.
    simpl in Hget. simpl. rewrite Hget.
    match goal with
    | |- context [find_project_date_changes _ p sd ed ?o] =>
        pose proof (find_project_date_changes_any_stdout
                      fromisoformat p sd ed [] o) as Hany;
        destruct (find_project_date_changes fromisoformat p sd ed o)
          as [r out'] eqn:Hrun
    end.
    assert (Hr : r = Py.Ok rows) by (rewrite <- Hp; now rewrite Hany).
    subst r. cbv beta iota.
    rewrite (IH rowss' Hrest). cbn [combine map List.concat fst snd].
    now rewrite <- app_assoc.
Qed.

(** X9. Content of the report.  When every configured project can be
    fetched and read, the table is the header followed by the rows of the
    projects in configuration order, each row headed by the name the tracker
    gives the project (the name in the configuration is only echoed). *)
Theorem report_table_rows
    (fromisoformat : string -> Py.result datetime)
    (gl_projects_get : string -> Py.result project)
    (projects : list (string * string)) (ps : list project) (rowss : list table)
    (sd ed : datetime) (out : stdout) :
  Forall2 (fun cfg p => gl_projects_get (snd cfg) = Py.Ok p) projects ps ->
  Forall2 (fun p rows =>
             fst (find_project_date_changes fromisoformat p sd ed [])
             = Py.Ok rows) ps rowss ->
  fst (report_table fromisoformat gl_projects_get projects sd ed out)
  = Py.Ok (HEADER
           :: List.concat (map (fun pr => named_rows (fst pr) (snd pr))
                               (combine ps rowss))).
Proof.
  intros Hget Hrows. unfold report_table.
  change report_header with (Py.Ok HEADER). cbv iota beta.
  now rewrite (report_loop_rows _ _ _ _ _ _ Hget _ Hrows).
Qed.

Lemma report_table_header
    (fromisoformat : string -> Py.result datetime)
    (gl_projects_get : string -> Py.result project)
    (projects : list (string * string)) (sd ed : datetime) (out : stdout)
    (values : table) :
  fst (report_table fromisoformat gl_projects_get projects sd ed out)
  = Py.Ok values ->
  exists rows, values = HEADER :: rows.
Proof.
  unfold report_table. change report_header with (Py.Ok HEADER).
  cbv iota beta. intros H.
  destruct (report_loop_widths _ _ _ _ _ _ _ _ H) as [rows [-> _]].
  now exists rows.
Qed.

(** X10. The sheet update of a run.  When the table is assembled, the tab
    named on the command line receives one update whose values are the whole
    table and whose range is [A1:R] followed by the number of rows, header
    included; the 17-column table never makes [write_to_gsheet] fail.  When
    assembling the table raises, the run raises the same exception and the
    sheet receives nothing. *)
Theorem generate_label_report_update
    (fromisoformat : string -> Py.result datetime)
    (gl_projects_get : string -> Py.result project)
    (projects : list (string * string)) (sd ed : datetime)
    (tab_name : string) (out : stdout) :
  (forall values,
      fst (report_table fromisoformat gl_projects_get projects sd ed out)
      = Py.Ok values ->
      fst (generate_label_report fromisoformat gl_projects_get projects
             sd ed tab_name out)
      = Py.Ok (mkupdate tab_name
                 ("A1:R" ++ decimal_nat (List.length values))%string values))
  /\ (forall e,
        fst (report_table fromisoformat gl_projects_get projects sd ed out)
        = Py.Raise e ->
        fst (generate_label_report fromisoformat gl_projects_get projects
               sd ed tab_name out)
        = Py.Raise e)
  /\ snd (generate_label_report fromisoformat gl_projects_get projects
            sd ed tab_name out)
     = snd (report_table fromisoformat gl_projects_get projects sd ed out).
Proof.
  unfold generate_label_report. split; [|split].
  - intros values Hv.
    destruct (report_table_header _ _ _ _ _ _ _ Hv) as [rows ->].
    destruct (report_table fromisoformat gl_projects_get projects sd ed out)
      as [r out']. simpl in Hv. subst r. reflexivity.
  - intros e He.
    destruct (report_table fromisoformat gl_projects_get projects sd ed out)
      as [r out']. simpl in He. subst r. reflexivity.
  - destruct (report_table fromisoformat gl_projects_get projects sd ed out)
      as [[values|e] out']; reflexivity.
Qed.

(** ** The reference parser *)

Lemma digit_of_range (c : ascii) (d : Z) : digit_of c = Some d -> 0 <= d <= 9.
Proof.
  unfold digit_of.
  destruct (Nat.leb_spec 48 (nat_of_ascii c)); [|discriminate].
  destruct (Nat.leb_spec (nat_of_ascii c) 57); [|discriminate].
  simpl. intros [= <-]. lia.
Qed.

Lemma digits_value_range (s : string) :
  forall acc z,
    0 <= acc -> digits_value s acc = Some z ->
    acc * 10 ^ Z.of_nat (String.length s) <= z
    < (acc + 1) * 10 ^ Z.of_nat (String.length s).
Proof.
  induction s as [|c s IH]; intros acc z Hacc; simpl digits_value.
  - intros [= <-]. simpl. lia.
  - destruct (digit_of c) as [d|] eqn:Hd; [|discriminate].
    apply digit_of_range in Hd. intros Hz.
    apply IH in Hz; [|lia].
    cbn [String.length]. rewrite Nat2Z.inj_succ, Z.pow_succ_r by lia.
    assert (0 < 10 ^ Z.of_nat (String.length s)) by (apply Z.pow_pos_nonneg; lia).
    nia.
Qed.

Lemma number_at_range (s : string) (pos len : nat) (z : Z) :
  number_at s pos len = Some z -> 0 <= z < 10 ^ Z.of_nat len.
Proof.
  unfold number_at.
  destruct (Nat.eqb_spec (String.length (String.substring pos len s)) len)
    as [Hlen|]; [|discriminate].
  intros H. apply digits_value_range in H; [|lia].
  rewrite Hlen in H. lia.
Qed.

Lemma fraction_of_range (s : string) (us : Z) :
  fraction_of s = Some us -> 0 <= us < 1000000.
Proof.
  unfold fraction_of. generalize (String.length s) as n. intros n.
  do 19 (destruct n as [|n]; [discriminate|]).
  destruct n as [|n]; [intros [= <-]; lia|].
  do 3 (destruct n as [|n]; [discriminate|]).
  destruct n as [|n].
  { destruct (char_at s 19 "."); [|discriminate].
    destruct (number_at s 20 3) as [z|] eqn:Hz; [|discriminate].
    apply number_at_range in Hz. cbn [option_map]. intros Hus.
    assert (us = 1000 * z) by congruence. subst us.
    change (10 ^ Z.of_nat 3) with 1000 in Hz. lia. }
  do 2 (destruct n as [|n]; [discriminate|]).
  destruct n as [|n]; [|discriminate].
  destruct (char_at s 19 "."); [|discriminate].
  intros Hz. apply number_at_range in Hz.
  change (10 ^ Z.of_nat 6) with 1000000 in Hz. exact Hz.
Qed.

(** The reference parser only returns calendar datetimes. *)
Lemma iso_parser_valid (s : string) (d : datetime) :
  iso_parser s = Py.Ok d -> valid_datetime d.
Proof.
  unfold iso_parser.
  destruct (number_at s 0 4) as [y|] eqn:Hy; [|discriminate].
  destruct (number_at s 5 2) as [m|] eqn:Hm; [|discriminate].
  destruct (number_at s 8 2) as [dd|] eqn:Hd; [|discriminate].
  destruct (number_at s 11 2) as [hh|] eqn:Hh; [|discriminate].
  destruct (number_at s 14 2) as [mm|] eqn:Hmi; [|discriminate].
  destruct (number_at s 17 2) as [ss|] eqn:Hs; [|discriminate].
  destruct (fraction_of s) as [us|] eqn:Hus; [|discriminate].
  apply number_at_range in Hy, Hm, Hd, Hh, Hmi, Hs.
  apply fraction_of_range in Hus.
  change (10 ^ Z.of_nat 4) with 10000 in Hy.
  change (10 ^ Z.of_nat 2) with 100 in Hm, Hd, Hh, Hmi, Hs.
  match goal with
  | |- (if ?c then _ else _) = _ -> _ => destruct c eqn:Hc; [|discriminate]
  end.
  intros [= <-].
  repeat (apply andb_prop in Hc as [Hc ?]).
  unfold valid_datetime, valid_date. cbn.
  rewrite ?Z.leb_le, ?Z.ltb_lt in *.
  repeat split; lia.
Qed.

(** ** The sign of the elapsed days *)

Lemma ymd2ord_lex (a b : date) :
  valid_date a -> valid_date b ->
  (d_year a < d_year b -> date_toordinal a < date_toordinal b)
  /\ (d_year a = d_year b -> d_month a < d_month b ->
      date_toordinal a < date_toordinal b)
  /\ (d_year a = d_year b -> d_month a = d_month b ->
      date_toordinal a - date_toordinal b = d_day a - d_day b).
Proof.
  intros Ha Hb.
  pose proof (day_of_year_bounds a Ha) as Hda.
  pose proof (day_of_year_bounds b Hb) as Hdb.
  destruct a as [y1 m1 d1], b as [y2 m2 d2].
  unfold valid_date, date_toordinal, ymd2ord in *.
  cbn [d_year d_month d_day] in *.
  split; [|split].
  - intros Hy.
    pose proof (days_before_year_mono (y1 + 1) y2 ltac:(lia)).
    pose proof (days_before_year_succ y1). lia.
  - intros -> Hm. pose proof (month_order y2 m2 m1 d2 d1). lia.
  - intros -> ->. lia.
Qed.

Lemma leb_timestamp (a b : datetime) :
  valid_datetime a -> valid_datetime b ->
  Datetime.leb a b = true -> timestamp_us a <= timestamp_us b.
Proof.
  intros [Hda [Hha [Hma [Hsa Hua]]]] [Hdb [Hhb [Hmb [Hsb Hub]]]].
  destruct (ymd2ord_lex _ _ Hda Hdb) as [Hy [Hm Hd]].
  unfold timestamp_us, toordinal, date_toordinal in *.
  cbn [d_year d_month d_day] in *.
  unfold Datetime.leb, cmp, fields. cbn [tuple_cmp].
  destruct (Z.compare_spec (year a) (year b)) as [Ey|Ly|Gy];
    [|intros _; specialize (Hy Ly); lia|discriminate].
  destruct (Z.compare_spec (month a) (month b)) as [Em|Lm|Gm];
    [|intros _; specialize (Hm Ey Lm); lia|discriminate].
  specialize (Hd Ey Em).
  destruct (Z.compare_spec (day a) (day b)) as [Ed|Ld|Gd];
    [|intros _; lia|discriminate].
  destruct (Z.compare_spec (hour a) (hour b)) as [Eh|Lh|Gh];
    [|intros _; lia|discriminate].
  destruct (Z.compare_spec (minute a) (minute b)) as [Ei|Li|Gi];
    [|intros _; lia|discriminate].
  destruct (Z.compare_spec (second a) (second b)) as [Es|Ls|Gs];
    [|intros _; lia|discriminate].
  destruct (Z.compare_spec (microsecond a) (microsecond b)) as [Eu|Lu|Gu];
    [intros _; lia|intros _; lia|discriminate].
Qed.

Lemma scan_events_members (events : list event) (sl fl : string) start s e :
  scan_events events sl fl start = (Some s, Some e) ->
  (start = Some s \/ In s (map snd events)) /\ In e (map snd events).
Proof.
  revert start; induction events as [|[l t] events IH]; intros start; simpl;
    [discriminate|].
  destruct (String.eqb l fl).
  - intros [= -> <-]. auto.
  - destruct (String.eqb l sl); intros H; apply IH in H as [[H|H] He];
      try injection H as <-; auto.
Qed.

(** *** Sign of a binary64 quotient *)

Lemma iter_pos_invariant {A} (f : A -> A) (P : A -> Prop) :
  (forall x, P x -> P (f x)) ->
  forall p x, P x -> P (iter_pos f p x).
Proof.
  intros Hf. induction p as [p IH|p IH|]; intros x Hx; simpl; auto.
Qed.

Lemma shr_1_nonneg (mrs : shr_record) :
  0 <= shr_m mrs -> 0 <= shr_m (shr_1 mrs).
Proof.
  destruct mrs as [m r s]. simpl.
  destruct m as [|p|p]; [| destruct p | lia]; simpl; lia.
Qed.

Lemma shr_fexp_nonneg (m e : Z) (l : location) :
  0 <= m ->
  0 <= shr_m (fst (shr_fexp Float64.prec Float64.emax m e l)).
Proof.
  intros Hm. unfold shr_fexp, shr.
  assert (H0 : 0 <= shr_m (shr_record_of_loc m l))
    by (destruct l as [|[]]; exact Hm).
  destruct (_ - e) as [|p|p]; simpl; try exact H0.
  now apply iter_pos_invariant; [exact shr_1_nonneg|].
Qed.

Lemma round_nearest_even_nonneg (m : Z) (l : location) :
  0 <= m -> 0 <= round_nearest_even m l.
Proof.
  intros Hm. destruct l as [|[]]; simpl; try lia.
  destruct (Z.even m); lia.
Qed.

Lemma binary_round_aux_nonneg (mx ex : Z) (lx : location) :
  0 <= mx ->
  nonneg_float (binary_round_aux Float64.prec Float64.emax false mx ex lx).
Proof.
  intros Hm. unfold binary_round_aux.
  pose proof (shr_fexp_nonneg mx ex lx Hm) as H1.
  destruct (shr_fexp Float64.prec Float64.emax mx ex lx) as [mrs' e'].
  simpl in H1.
  pose proof (shr_fexp_nonneg _ e' loc_Exact
                (round_nearest_even_nonneg _ (loc_of_shr_record mrs') H1))
    as H2.
  destruct (shr_fexp Float64.prec Float64.emax _ e' loc_Exact) as [mrs'' e''].
  simpl in H2.
  destruct (shr_m mrs'') as [|m|m]; [exact I| |lia].
  destruct (e'' <=? _); exact I.
Qed.

Lemma div_nonneg (x : Float64.float) (my : positive) (ey : Z) :
  nonneg_float x ->
  nonneg_float (Float64.div x (S754_finite false my ey)).
Proof.
  destruct x as [sx|[]| |[] mx ex]; simpl; try tauto; intros _.
  unfold SFdiv_core_binary.
  set (e' := Z.min _ _). set (m' := match _ with Z0 => _ | _ => _ end).
  assert (Hm' : 0 <= m').
  { subst m'. destruct (ex - ey - e'); try lia.
    rewrite Z.shiftl_mul_pow2 by lia. apply Z.mul_nonneg_nonneg; lia. }
  pose proof (Z.div_pos m' (Z.pos my) Hm' ltac:(lia)) as Hq.
  unfold Z.div in Hq.
  destruct (Z.div_eucl m' (Z.pos my)) as [q r].
  now apply binary_round_aux_nonneg.
Qed.

Lemma elapsed_days_nonneg (s e : datetime) :
  timestamp_us s <= timestamp_us e ->
  SFleb (S754_zero false) (elapsed_days s e) = true.
Proof.
  intros Hle. unfold elapsed_days.
  assert (H1 : nonneg_float
                 (Float64.int_truediv (timestamp_us e - timestamp_us s) 1000000)).
  { unfold Float64.int_truediv.
    destruct (timestamp_us e - timestamp_us s) as [|p|p] eqn:Hd; [exact I| |lia].
    apply (div_nonneg (S754_finite false p 0)). exact I. }
  change (Float64.of_int 86400) with (S754_finite false 5937362789990400 (-36)).
  pose proof (div_nonneg _ 5937362789990400 (-36) H1) as H2.
  destruct (Float64.div _ _) as [s0|[]| |[] m0 e0]; simpl in H2; try tauto;
    reflexivity.
Qed.

Lemma detector_elapsed_nonneg
    (events : list event) (sl fl : string) (s e : datetime) :
  sorted_ascending events ->
  Forall (fun ev : event => valid_datetime (snd ev)) events ->
  find_events_dates_changes events sl fl = (Some s, Some e) ->
  timestamp_us s <= timestamp_us e.
Proof.
  intros Hsorted Hvalid Hres.
  assert (Hle : Datetime.leb s e = true).
  { apply (scan_events_ordered events sl fl None s e); try assumption.
    - apply Sorted_StronglySorted;
        [exact DatetimeFacts.time_le_trans | exact Hsorted].
    - discriminate. }
  destruct (scan_events_members _ _ _ _ _ _ Hres) as [[Hs|Hs] He];
    [discriminate|].
  assert (Hin : forall t, In t (map snd events) -> valid_datetime t).
  { intros t Ht. apply in_map_iff in Ht as [ev [<- Hev]].
    rewrite Forall_forall in Hvalid. now apply Hvalid. }
  exact (leb_timestamp s e (Hin s Hs) (Hin e He) Hle).
Qed.

Lemma relevant_events_valid
    (fromisoformat : string -> Py.result datetime)
    (raw : list raw_event) (evs : list event) :
  (forall str d, fromisoformat str = Py.Ok d -> valid_datetime d) ->
  relevant_events fromisoformat raw = Py.Ok evs ->
  Forall (fun ev : event => valid_datetime (snd ev)) evs.
Proof.
  intros Hparser. revert evs; induction raw as [|ev raw IH]; intros evs; simpl.
  - intros [= <-]. constructor.
  - destruct (label ev) as [label_name|]; [|now apply IH].
    destruct (in_LABELS label_name); [|now apply IH].
    destruct (parse_datetime fromisoformat (created_at ev)) as [t|] eqn:Ht;
      simpl; [|discriminate].
    destruct (relevant_events fromisoformat raw) as [evs'|]; simpl;
      [|discriminate].
    intros [= <-]. constructor; [|now apply IH].
    exact (Hparser _ _ Ht).
Qed.

Lemma float_cell_origin
    (dcs : list (option datetime * option datetime)) (c : Float64.float) :
  In (VFloat c) (format_date_changes dcs) ->
  exists s e, In (Some s, Some e) dcs /\ c = elapsed_days s e.
Proof.
  rewrite format_date_changes_concat, in_concat.
  intros [cells [Hcells Hc]]. apply in_map_iff in Hcells as [r [<- Hr]].
  destruct r as [[s|] [e|]]; simpl in Hc;
    try (destruct Hc as [Hc|[Hc|[Hc|[]]]]; discriminate Hc).
  destruct Hc as [Hc|[Hc|[Hc|[]]]]; try discriminate Hc.
  injection Hc as <-. now exists s, e.
Qed.

(** X11. Elapsed days are never negative.  On events sorted ascending
    whose timestamps are calendar datetimes, a transition with both a start
    and an end has a non-negative time difference, so the [timedelta] has a
    non-negative day count and the elapsed-days cell [c] satisfies
    [0.0 <= c].  Hence, when [datetime.fromisoformat] only returns calendar
    datetimes, every number in the cells of an issue is [>= 0.0]. *)
Theorem nb_days_nonnegative :
  (forall events sl fl s e,
      sorted_ascending events ->
      Forall (fun ev : event => valid_datetime (snd ev)) events ->
      find_events_dates_changes events sl fl = (Some s, Some e) ->
      0 <= timestamp_us e - timestamp_us s
      /\ 0 <= td_days (Datetime.sub e s)
      /\ SFleb (S754_zero false) (nb_days s e) = true)
  /\ (forall fromisoformat,
        (forall str d, fromisoformat str = Py.Ok d -> valid_datetime d) ->
        forall i sd ed dcs c,
          find_issue_dates_changes fromisoformat i sd ed = Py.Ok dcs ->
          In (VFloat c) (format_date_changes dcs) ->
          SFleb (S754_zero false) c = true).
Proof.
  split.
  - intros events sl fl s e Hsorted Hvalid Hres.
    pose proof (detector_elapsed_nonneg _ _ _ _ _ Hsorted Hvalid Hres) as Hus.
    split; [lia|]. split.
    + unfold Datetime.sub, timedelta_of. cbn [td_days].
      apply Z.div_pos; [|lia]. apply Z.div_pos; [|lia].
      unfold timestamp_us in Hus. lia.
    + rewrite nb_days_elapsed. now apply elapsed_days_nonneg.
  - intros fromisoformat Hparser i sd ed dcs c Hdcs Hc.
    destruct (float_cell_origin dcs c Hc) as [s [e [Hin ->]]].
    apply elapsed_days_nonneg.
    unfold find_issue_dates_changes, normalized_events in Hdcs.
    destruct (relevant_events fromisoformat (resourcelabelevents i))
      as [kept|] eqn:Hkept; cbn [Py.bind] in Hdcs; [|discriminate].
    match type of Hdcs with
    | Py.Ok ?l = _ => assert (Hd : dcs = l) by congruence
    end.
    rewrite Hd in Hin. apply in_map_iff in Hin as [tr [Htr _]].
    apply window_filter_both in Htr.
    apply (detector_elapsed_nonneg (sorted_by_time kept) (fst tr) (snd tr));
      [apply sorted_by_time_sorted | | exact Htr].
    apply (Permutation_Forall (sorted_by_time_perm kept)).
    now apply (relevant_events_valid fromisoformat (resourcelabelevents i)).
Qed.

(** ** The default window *)

Lemma toordinal_click_DateTime (d : date) :
  toordinal (click_DateTime d) = date_toordinal d.
Proof. reflexivity. Qed.

(** X12. With both defaults the window is exactly thirty days long: the
    end minus the start is [timedelta(days=30)], that is 30.0 elapsed days.
    The default of [--start-date] cannot be computed, [OverflowError], only
    when today is one of the first thirty days of year 1. *)
Theorem default_window_thirty_days (today : date) :
  valid_date today ->
  (forall s e,
      start_date_default today = Py.Ok s ->
      end_date_default today = Py.Ok e ->
      Datetime.sub e s = mktimedelta 30 0 0
      /\ nb_days s e = S754_finite false 8444249301319680 (-48))
  /\ (start_date_default today = Py.Raise Py.OverflowError <->
      date_toordinal today <= 30).
Proof.
  intros Hvalid.
  pose proof (date_toordinal_bounds today Hvalid) as [Hmin Hmax].
  unfold start_date_default, end_date_default, date_sub_days.
  rewrite Z.add_opp_r.
  destruct (Z.ltb_spec 0 (date_toordinal today - 30)) as [Hlate|Hearly].
  - assert (Hhi : (date_toordinal today - 30 <=? MAXORDINAL) = true)
      by (apply Z.leb_le; lia).
    rewrite Hhi. cbn [andb Py.bind]. split.
    + intros s e [= <-] [= <-].
      destruct (ord2ymd_correct (date_toordinal today - 30) ltac:(lia))
        as [Hord _].
      assert (Hsub : Datetime.sub (click_DateTime today)
                       (click_DateTime (ord2ymd (date_toordinal today - 30)))
                     = mktimedelta 30 0 0).
      { unfold Datetime.sub. rewrite !toordinal_click_DateTime, Hord.
        unfold click_DateTime. cbn [hour minute second microsecond].
        replace (date_toordinal today - (date_toordinal today - 30)) with 30
          by lia.
        reflexivity. }
      split; [exact Hsub|].
      unfold nb_days. rewrite Hsub. vm_compute. reflexivity.
    + split; [discriminate | lia].
  - cbn [andb Py.bind]. split.
    + intros s e [=].
    + split; [lia | reflexivity].
Qed.

(** ** The sheet and its tabs *)

(** X13. The range of the update for every table: an empty table raises
    [IndexError]; with a first row of at most 25 cells the range runs from
    [A1] to the row numbered by the count of rows, in the column whose
    number is the count of columns plus one; with a first row of 26 cells or
    more the column index is out of range and the call raises [IndexError]. *)
Theorem update_range_behaviour :
  update_range [] = Py.Raise Py.IndexError
  /\ (forall row rest,
        (List.length row <= 25)%nat ->
        exists c,
          update_range (row :: rest)
          = Py.Ok ("A1:" ++ String c (decimal_nat (List.length (row :: rest))))%string
          /\ column_number c = S (List.length row))
  /\ (forall row rest,
        (26 <= List.length row)%nat ->
        update_range (row :: rest) = Py.Raise Py.IndexError).
Proof.
  split; [reflexivity|]. split.
  - intros row rest. apply (proj1 (update_range_columns row rest)).
  - intros row rest. apply (proj2 (update_range_columns row rest)).
Qed.

Lemma find_worksheet_app (sheet : spreadsheet) (ws : worksheet) (title : string) :
  find_worksheet sheet title = None ->
  find_worksheet (sheet ++ [ws]) title
  = if String.eqb (ws_title ws) title then Some ws else None.
Proof.
  induction sheet as [|w sheet IH]; simpl; [reflexivity|].
  destruct (String.eqb (ws_title w) title); [discriminate | exact IH].
Qed.

Lemma find_worksheet_title (sheet : spreadsheet) (title : string) ws :
  find_worksheet sheet title = Some ws -> In ws sheet /\ ws_title ws = title.
Proof.
  induction sheet as [|w sheet IH]; simpl; [discriminate|].
  destruct (String.eqb_spec (ws_title w) title) as [Heq|Hne].
  - intros [= <-]. auto.
  - intros H. destruct (IH H). auto.
Qed.

(** X14. The tab that receives the update.  The update sent is the one
    [write_to_gsheet] computes, and after a successful call the tab exists.
    A tab that exists is used as it is and the
    spreadsheet keeps its tabs unchanged; a missing tab is added at the end,
    sized as the table, before the range is computed.  So on a new tab the
    range ends one column past the grid that was just created, and a table of
    26 columns or more leaves the new tab behind although the call raises.
    An empty table raises before the spreadsheet is touched. *)
Theorem write_to_gsheet_tab (sheet : spreadsheet) (tab_name : string) :
  (forall values,
      match fst (write_to_gsheet_in sheet values tab_name) with
      | Py.Ok (ws, u) =>
          write_to_gsheet values tab_name = Py.Ok u
          /\ find_worksheet (snd (write_to_gsheet_in sheet values tab_name))
                            tab_name = Some ws
      | Py.Raise e => write_to_gsheet values tab_name = Py.Raise e
      end)
  /\ write_to_gsheet_in sheet [] tab_name = (Py.Raise Py.IndexError, sheet)
  /\ (forall ws row rest,
        find_worksheet sheet tab_name = Some ws ->
        snd (write_to_gsheet_in sheet (row :: rest) tab_name) = sheet)
  /\ (forall row rest,
        find_worksheet sheet tab_name = None ->
        let ws := mkworksheet tab_name (List.length (row :: rest))
                              (List.length row) in
        snd (write_to_gsheet_in sheet (row :: rest) tab_name) = sheet ++ [ws]
        /\ ((List.length row <= 25)%nat ->
            exists c,
              fst (write_to_gsheet_in sheet (row :: rest) tab_name)
              = Py.Ok (ws, mkupdate tab_name
                             ("A1:" ++ String c
                                (decimal_nat (List.length (row :: rest))))%string
                             (row :: rest))
              /\ column_number c = S (ws_cols ws))
        /\ ((26 <= List.length row)%nat ->
            fst (write_to_gsheet_in sheet (row :: rest) tab_name)
            = Py.Raise Py.IndexError)).
Proof.
  split; [|split; [reflexivity|split]].
  - intros [|row rest]; [reflexivity|].
    unfold write_to_gsheet_in, write_to_gsheet.
    destruct (find_worksheet sheet tab_name) as [ws|] eqn:Hfind; cbn [fst snd].
    + destruct (update_range (row :: rest)); cbn [Py.bind]; [|reflexivity].
      now split.
    + destruct (update_range (row :: rest)); cbn [Py.bind]; [|reflexivity].
      split; [reflexivity|].
      rewrite (find_worksheet_app _ _ _ Hfind). cbn [ws_title].
      now rewrite String.eqb_refl.
  - intros ws row rest Hfind. unfold write_to_gsheet_in. now rewrite Hfind.
  - intros row rest Hfind ws. unfold write_to_gsheet_in. rewrite Hfind.
    cbn [fst snd]. split; [reflexivity|].
    destruct (update_range_columns row rest) as [Hsmall Hbig]. split.
    + intros Hlen. destruct (Hsmall Hlen) as [c [Hc Hcol]].
      exists c. rewrite Hc. now split.
    + intros Hlen. now rewrite (Hbig Hlen).
Qed.

(** * Concrete runs *)

Lemma find_events_dates_changes_spec_run :
  find_events_dates_changes sample_events LABEL_DOING LABEL_REVIEW
  = (latest_occurrence LABEL_DOING
       [(LABEL_DOING, jan 1 0); (LABEL_DOING, jan 2 0)],
     Some (jan 3 12))
  /\ find_events_dates_changes sample_events LABEL_DOING LABEL_WAITING_FOR_PROD
     = (latest_occurrence LABEL_DOING sample_events, None)
  /\ find_events_dates_changes sample_events
       LABEL_READY_FOR_QA LABEL_WAITING_FOR_PROD
     = (None, None).
Proof.
  destruct (find_events_dates_changes_spec sample_events
              LABEL_DOING LABEL_REVIEW) as [Hfirst _].
  destruct (find_events_dates_changes_spec sample_events
              LABEL_DOING LABEL_WAITING_FOR_PROD) as [_ [Hnever _]].
  destruct (find_events_dates_changes_spec sample_events
              LABEL_READY_FOR_QA LABEL_WAITING_FOR_PROD) as [_ [_ Hnone]].
  split; [|split].
  - apply (Hfirst [(LABEL_DOING, jan 1 0); (LABEL_DOING, jan 2 0)]
                  (jan 3 12)
                  [(LABEL_DOING, jan 4 0); (LABEL_REVIEW, jan 5 0);
                   (LABEL_RELEASED, jan 6 0)]).
    + reflexivity.
    + unfold occurs. simpl. intuition discriminate.
  - apply Hnever. unfold occurs. simpl. intuition discriminate.
  - apply Hnone; unfold occurs; simpl; intuition discriminate.
Defined.

Lemma find_events_dates_changes_end_after_start_run :
  sorted_ascending sample_events
  /\ Datetime.leb (jan 2 0) (jan 3 12) = true
  /\ Datetime.leb (jan 2 0) (jan 6 0) = true.
Proof.
  assert (Hsorted : sorted_ascending sample_events).
  { unfold sorted_ascending, sample_events.
    repeat (constructor; try reflexivity). }
  split; [exact Hsorted|]. split.
  - apply (proj1 (find_events_dates_changes_end_after_start
                    (jan 2 0) (jan 3 12))
             sample_events LABEL_DOING LABEL_REVIEW Hsorted).
    reflexivity.
  - apply (proj2 (find_events_dates_changes_end_after_start
                    (jan 2 0) (jan 6 0))
             iso_parser sample_issue (jan 1 0) (jan 31 0)
             sample_date_changes).
    + reflexivity.
    + simpl. tauto.
Defined.

Lemma window_filter_spec_run :
  window_filter (jan 1 0) (jan 31 0) (Some (jan 2 0), Some (jan 3 12))
  = (Some (jan 2 0), Some (jan 3 12))
  /\ window_filter (jan 1 0) (jan 5 0) (Some (jan 2 0), Some (jan 6 0))
     = (None, None)
  /\ window_filter (jan 1 0) (jan 5 0) (Some (jan 2 0), Some (jan 5 0))
     = (None, None)
  /\ window_filter (jan 3 12) (jan 5 0) (Some (jan 2 0), Some (jan 3 12))
     = (Some (jan 2 0), Some (jan 3 12))
  /\ window_filter (jan 1 0) (jan 5 0) (None, Some (jan 6 0))
     = (None, Some (jan 6 0)).
Proof.
  split; [|split; [|split; [|split]]].
  - apply (proj1 (window_filter_spec (jan 1 0) (jan 31 0))); reflexivity.
  - apply (proj1 (proj2 (window_filter_spec (jan 1 0) (jan 5 0)))).
    right. reflexivity.
  - apply (proj1 (proj2 (proj2 (window_filter_spec (jan 1 0) (jan 5 0))))).
  - apply (proj1 (proj2 (proj2 (proj2
             (window_filter_spec (jan 3 12) (jan 5 0)))))).
    reflexivity.
  - apply (proj2 (proj2 (proj2 (proj2
             (window_filter_spec (jan 1 0) (jan 5 0)))))).
    left. reflexivity.
Defined.

Lemma normalized_events_spec_run :
  let evs := [ (LABEL_DOING, jan 2 0); (LABEL_REVIEW, jan 3 12);
               (LABEL_RELEASED, jan 6 0) ] in
  normalized_events iso_parser sample_issue = Py.Ok evs
  /\ sorted_ascending evs
  /\ Forall (fun e : event => In (fst e) RECOGNIZED) evs
  /\ (exists evs', normalized_events iso_parser sample_issue = Py.Ok evs')
  /\ find_issue_dates_changes iso_parser
       (mkissue 1 7 (filter recognized sample_raw)) (jan 1 0) (jan 31 0)
     = find_issue_dates_changes iso_parser sample_issue (jan 1 0) (jan 31 0).
Proof.
  intros evs.
  destruct (normalized_events_spec iso_parser sample_issue)
    as [Hout [Htotal Hsame]].
  assert (Hrun : normalized_events iso_parser sample_issue = Py.Ok evs)
    by reflexivity.
  destruct (Hout evs Hrun) as [Hsorted [_ Hlabels]].
  split; [exact Hrun|]. split; [exact Hsorted|]. split; [exact Hlabels|].
  split.
  - apply Htotal. intros ev Hin Hrec. simpl in Hin.
    destruct Hin as [<-|[<-|[<-|[<-|[<-|[]]]]]];
      try discriminate Hrec; eexists; reflexivity.
  - apply (Hsame (mkissue 1 7 (filter recognized sample_raw))).
    reflexivity.
Defined.

Lemma find_project_date_changes_rows_run :
  fst (find_project_date_changes iso_parser sample_project
         (jan 1 0) (jan 31 0) [])
  = Py.Ok [VInt 7 :: format_date_changes sample_date_changes].
Proof.
  apply (find_project_date_changes_rows iso_parser sample_project
           (jan 1 0) (jan 31 0) []
           [sample_date_changes; repeat (None, None) 5]).
  repeat constructor.
Defined.

Lemma project_rows_deterministic_run :
  fst (project_loop iso_parser 0 [sample_issue] (jan 1 0) (jan 31 0) [] [])
  = fst (project_loop iso_parser 100 [mkissue 1234 7 sample_raw]
           (jan 1 0) (jan 31 0) [] ["Looking at exporter"]).
Proof.
  apply (project_rows_deterministic iso_parser
           [sample_issue] [mkissue 1234 7 sample_raw] (jan 1 0) (jan 31 0)).
  repeat constructor.
Defined.

Lemma report_table_rectangular_run :
  exists values,
    fst (report_table iso_parser sample_server [("exporter", "42")]
           (jan 1 0) (jan 31 0) []) = Py.Ok values
    /\ List.length values = 2%nat
    /\ Forall (width 17) values.
Proof.
  destruct (report_table_rectangular iso_parser sample_server
              [("exporter", "42")] (jan 1 0) (jan 31 0) [])
    as [_ [_ [_ [Htable _]]]].
  eexists. split; [reflexivity|]. split; [reflexivity|].
  apply Htable. reflexivity.
Defined.

Lemma cli_defaults_run :
  valid_date (mkdate 2024 3 1)
  /\ 30 < date_toordinal (mkdate 2024 3 1)
  /\ exists d,
       start_date_default (mkdate 2024 3 1) = Py.Ok (click_DateTime d)
       /\ valid_date d
       /\ date_toordinal d = date_toordinal (mkdate 2024 3 1) - 30
       /\ end_date_default (mkdate 2024 3 1)
          = Py.Ok (click_DateTime (mkdate 2024 3 1))
       /\ Datetime.ltb (click_DateTime d) (click_DateTime (mkdate 2024 3 1))
          = true.
Proof.
  assert (Hvalid : valid_date (mkdate 2024 3 1)).
  { unfold valid_date. vm_compute. repeat split; discriminate. }
  assert (Hlate : 30 < date_toordinal (mkdate 2024 3 1)) by reflexivity.
  split; [exact Hvalid|]. split; [exact Hlate|].
  exact (cli_defaults (mkdate 2024 3 1) Hvalid Hlate).
Defined.


Lemma find_events_dates_changes_provenance_run :
  occurs LABEL_REVIEW sample_events
  /\ (exists e,
        snd (find_events_dates_changes sample_events LABEL_DOING LABEL_REVIEW)
        = Some e)
  /\ (exists pre post,
        sample_events = pre ++ (LABEL_REVIEW, jan 3 12) :: post
        /\ ~ occurs LABEL_REVIEW pre
        /\ (forall s0, Some (jan 2 0) = Some s0 -> In (LABEL_DOING, s0) pre))
  /\ (In (LABEL_DOING, jan 4 0) sample_events
      /\ ~ occurs LABEL_WAITING_FOR_PROD sample_events).
Proof.
  assert (Hocc : occurs LABEL_REVIEW sample_events).
  { unfold occurs. simpl. tauto. }
  split; [exact Hocc|]. split; [|split].
  - apply (proj1 (find_events_dates_changes_provenance
                    sample_events LABEL_DOING LABEL_REVIEW)).
    exact Hocc.
  - apply (proj1 (proj2 (find_events_dates_changes_provenance
                           sample_events LABEL_DOING LABEL_REVIEW))).
    reflexivity.
  - apply (proj1 (proj2 (proj2 (find_events_dates_changes_provenance
                                  sample_events LABEL_DOING
                                  LABEL_WAITING_FOR_PROD)))).
    reflexivity.
Defined.

Lemma find_issue_dates_changes_in_window_run :
  (Datetime.leb (jan 1 0) (jan 3 12) = true
   /\ Datetime.ltb (jan 3 12) (jan 31 0) = true)
  /\ Datetime.ltb (jan 31 0) (jan 1 0) = false
  /\ fst (find_project_date_changes iso_parser sample_project
            (jan 31 0) (jan 1 0) []) = Py.Ok [].
Proof.
  split; [|split; [reflexivity|]].
  - apply (proj1 (find_issue_dates_changes_in_window iso_parser
                    (jan 1 0) (jan 31 0))
             sample_issue sample_date_changes (jan 2 0) (jan 3 12)).
    + reflexivity.
    + simpl. tauto.
  - apply (proj2 (find_issue_dates_changes_in_window iso_parser
                    (jan 31 0) (jan 1 0)) eq_refl).
    repeat constructor; eexists; reflexivity.
Defined.

Lemma find_issue_dates_changes_order_independent_run :
  Permutation sample_raw (rev sample_raw)
  /\ normalized_events iso_parser (mkissue 1 7 (rev sample_raw))
     = normalized_events iso_parser sample_issue
  /\ find_issue_dates_changes iso_parser (mkissue 1 7 (rev sample_raw))
       (jan 1 0) (jan 31 0)
     = find_issue_dates_changes iso_parser sample_issue (jan 1 0) (jan 31 0).
Proof.
  assert (Hperm : Permutation sample_raw (rev sample_raw))
    by apply Permutation_rev.
  assert (Hnodup : NoDup (map snd [ (LABEL_DOING, jan 2 0);
                                    (LABEL_REVIEW, jan 3 12);
                                    (LABEL_RELEASED, jan 6 0) ])).
  { simpl. repeat constructor; simpl; intuition discriminate. }
  destruct (find_issue_dates_changes_order_independent iso_parser
              sample_issue (mkissue 1 7 (rev sample_raw)) _
              Hperm eq_refl Hnodup) as [Hnorm Hsame].
  split; [exact Hperm|]. split; [exact Hnorm | apply Hsame].
Defined.

Lemma normalized_events_ties_run :
  let tied := mkissue 2 9
                [ mkraw (Some LABEL_REVIEW) "2024-01-03T12:00:00.000Z";
                  mkraw (Some LABEL_DOING) "2024-01-02T00:00:00.000Z";
                  mkraw (Some LABEL_DOING) "2024-01-03T12:00:00.000Z" ] in
  let kept := [ (LABEL_REVIEW, jan 3 12); (LABEL_DOING, jan 2 0);
                (LABEL_DOING, jan 3 12) ] in
  let evs := [ (LABEL_DOING, jan 2 0); (LABEL_REVIEW, jan 3 12);
               (LABEL_DOING, jan 3 12) ] in
  relevant_events iso_parser (resourcelabelevents tied) = Py.Ok kept
  /\ normalized_events iso_parser tied = Py.Ok evs
  /\ filter (at_time (jan 3 12)) evs = filter (at_time (jan 3 12)) kept.
Proof.
  intros tied kept evs.
  assert (Hkept : relevant_events iso_parser (resourcelabelevents tied)
                  = Py.Ok kept) by reflexivity.
  assert (Hevs : normalized_events iso_parser tied = Py.Ok evs)
    by reflexivity.
  split; [exact Hkept|]. split; [exact Hevs|].
  exact (normalized_events_ties iso_parser tied kept evs (jan 3 12)
           Hkept Hevs).
Defined.


Lemma find_project_date_changes_stdout_run :
  let crowd := mkproject "crowd" (repeat quiet_issue 250) in
  snd (find_project_date_changes iso_parser crowd (jan 1 0) (jan 31 0)
         ["Looking at crowd"])
  = ["Looking at crowd"; "Treated 100 issues"; "Treated 200 issues"]
  /\ snd (find_project_date_changes iso_parser sample_project
            (jan 1 0) (jan 31 0) ["Looking at exporter"])
     = ["Looking at exporter"].
Proof.
  intros crowd.
  assert (Hquiet : exists dcs,
             find_issue_dates_changes iso_parser quiet_issue
               (jan 1 0) (jan 31 0) = Py.Ok dcs)
    by (eexists; reflexivity).
  assert (Hcrowd : Forall (fun i => exists dcs,
                      find_issue_dates_changes iso_parser i
                        (jan 1 0) (jan 31 0) = Py.Ok dcs) (issues crowd)).
  { apply Forall_forall. intros i Hi. apply repeat_spec in Hi. now subst i. }
  assert (Hsample : Forall (fun i => exists dcs,
                       find_issue_dates_changes iso_parser i
                         (jan 1 0) (jan 31 0) = Py.Ok dcs)
                      (issues sample_project)).
  { repeat constructor; eexists; reflexivity. }
  split.
  - apply (proj1 (find_project_date_changes_stdout iso_parser crowd
                    (jan 1 0) (jan 31 0) ["Looking at crowd"] Hcrowd)).
  - apply (proj2 (find_project_date_changes_stdout iso_parser sample_project
                    (jan 1 0) (jan 31 0) ["Looking at exporter"] Hsample)).
    simpl. lia.
Defined.

Lemma report_table_rows_run :
  fst (report_table iso_parser sample_server
         [("alias", "42"); ("other alias", "43")] (jan 1 0) (jan 31 0) [])
  = Py.Ok [ HEADER;
            VStr "exporter" :: VInt 7 :: format_date_changes sample_date_changes;
            VStr "exporter" :: VInt 7 :: format_date_changes sample_date_changes ].
Proof.
  apply (report_table_rows iso_parser sample_server
           [("alias", "42"); ("other alias", "43")]
           [sample_project; sample_project]
           [ [VInt 7 :: format_date_changes sample_date_changes];
             [VInt 7 :: format_date_changes sample_date_changes] ]).
  - repeat constructor.
  - repeat constructor.
Defined.

Lemma generate_label_report_update_run :
  let values :=
    [ HEADER;
      VStr "exporter" :: VInt 7 :: format_date_changes sample_date_changes ] in
  fst (report_table iso_parser sample_server [("alias", "42")]
         (jan 1 0) (jan 31 0) []) = Py.Ok values
  /\ fst (generate_label_report iso_parser sample_server [("alias", "42")]
            (jan 1 0) (jan 31 0) "January" [])
     = Py.Ok (mkupdate "January" "A1:R2" values).
Proof.
  intros values.
  assert (Htable : fst (report_table iso_parser sample_server
                          [("alias", "42")] (jan 1 0) (jan 31 0) [])
                   = Py.Ok values) by reflexivity.
  split; [exact Htable|].
  exact (proj1 (generate_label_report_update iso_parser sample_server
                  [("alias", "42")] (jan 1 0) (jan 31 0) "January" [])
           values Htable).
Defined.

Lemma nb_days_nonnegative_run :
  SFleb (S754_zero false) (nb_days (jan 2 0) (jan 3 12)) = true
  /\ (forall c,
        In (VFloat c) (format_date_changes sample_date_changes) ->
        SFleb (S754_zero false) c = true).
Proof.
  destruct nb_days_nonnegative as [Hdetector Hissue].
  split.
  - apply (Hdetector sample_events LABEL_DOING LABEL_REVIEW
                     (jan 2 0) (jan 3 12)).
    + unfold sorted_ascending, sample_events.
      repeat (constructor; try reflexivity).
    + apply Forall_forall. intros ev Hin. unfold sample_events in Hin.
      repeat (destruct Hin as [Hin|Hin];
              [subst ev; unfold valid_datetime, valid_date; vm_compute;
               repeat split; discriminate|]).
      contradiction.
    + reflexivity.
  - intros c.
    apply (Hissue iso_parser iso_parser_valid sample_issue
                  (jan 1 0) (jan 31 0)).
    reflexivity.
Defined.

Lemma default_window_thirty_days_run :
  valid_date (mkdate 2024 3 1)
  /\ Datetime.sub (click_DateTime (mkdate 2024 3 1))
                  (click_DateTime (mkdate 2024 1 31))
     = mktimedelta 30 0 0
  /\ ~ start_date_default (mkdate 2024 3 1) = Py.Raise Py.OverflowError.
Proof.
  assert (Hvalid : valid_date (mkdate 2024 3 1)).
  { unfold valid_date. vm_compute. repeat split; discriminate. }
  destruct (default_window_thirty_days (mkdate 2024 3 1) Hvalid)
    as [Hlength Hraise].
  split; [exact Hvalid|]. split.
  - apply (Hlength _ _ eq_refl eq_refl).
  - intros H. apply Hraise in H. vm_compute in H. now apply H.
Defined.

Lemma update_range_behaviour_run :
  (exists c,
      update_range [HEADER; HEADER]
      = Py.Ok ("A1:" ++ String c (decimal_nat 2))%string
      /\ column_number c = 18%nat)
  /\ update_range [repeat VNone 30] = Py.Raise Py.IndexError.
Proof.
  destruct update_range_behaviour as [_ [Hsmall Hbig]].
  split.
  - apply (Hsmall HEADER [HEADER]). simpl. lia.
  - apply (Hbig (repeat VNone 30) []). simpl. lia.
Defined.

Lemma write_to_gsheet_tab_run :
  let old := [mkworksheet "Sheet1" 1000 26] in
  snd (write_to_gsheet_in old [HEADER] "Sheet1") = old
  /\ snd (write_to_gsheet_in old [HEADER] "January")
     = old ++ [mkworksheet "January" 1 17]
  /\ (exists c,
        fst (write_to_gsheet_in old [HEADER] "January")
        = Py.Ok (mkworksheet "January" 1 17,
                 mkupdate "January" ("A1:" ++ String c (decimal_nat 1))%string
                          [HEADER])
        /\ column_number c = 18%nat)
  /\ fst (write_to_gsheet_in old [repeat VNone 26] "Wide")
     = Py.Raise Py.IndexError.
Proof.
  intros old.
  destruct (write_to_gsheet_tab old "Sheet1") as [_ [_ [Hexisting _]]].
  destruct (write_to_gsheet_tab old "January") as [_ [_ [_ Hmissing]]].
  destruct (write_to_gsheet_tab old "Wide") as [_ [_ [_ Hwide]]].
  destruct (Hmissing HEADER [] eq_refl) as [Hsheet [Hsmall _]].
  destruct (Hwide (repeat VNone 26) [] eq_refl) as [_ [_ Hbig]].
  split; [|split; [exact Hsheet|split]].
  - apply (Hexisting (mkworksheet "Sheet1" 1000 26) HEADER []). reflexivity.
  - apply Hsmall. simpl. lia.
  - apply Hbig. simpl. lia.
Defined.
